(** * Granola-to-Craft daily sync: a shallow embedding of [granola_to_craft.py]

    The development follows the layout of the script: the Python built-ins it
    relies on ([str.strip], [str.startswith], [re.sub], [date.isoformat]),
    the parse tree of the HTML library and the conversion that walks it,
    the transcript formatter, the date filter, the block builder and the
    orchestrating [main] with its HTTP collaborators. *)

From stdpp Require Import base decidable option list numbers strings.
From Stdlib Require Import ZArith Lia Strings.Ascii.

Set Warnings "-register-all".
Local Open Scope Z_scope.

(** ** Python strings

    A Python [str] is a sequence of Unicode code points; [len] counts code
    points, which is what the 50,000 character limit of the transcript page
    is measured in. *)
Module Py.

Definition str : Type := list N.

(** An ASCII literal of the script, one code point per character. *)
Definition lit (s : string) : str := N_of_ascii <$> String.list_ascii_of_string s.

Definition nl : N := 10%N.

(** [len(s)]: Python integers are unbounded. *)
Definition len {A} (s : list A) : Z := Z.of_nat (length s).

(** [s[:k]] for a non-negative constant [k]. *)
Definition slice_to {A} (k : Z) (s : list A) : list A := take (Z.to_nat k) s.

(** [bool(s)] of a string or a list: empty is falsy. *)
Definition truthy {A} (s : list A) : bool :=
  match s with [] => false | _ :: _ => true end.

(** [str.isspace] on one code point, as CPython's [_PyUnicode_IsWhitespace]:
    U+0009..U+000D, U+001C..U+0020, U+0085, U+00A0, U+1680, U+2000..U+200A,
    U+2028, U+2029, U+202F, U+205F, U+3000. *)
Definition isspace (c : N) : bool :=
  (((9 <=? c) && (c <=? 13)) || ((28 <=? c) && (c <=? 32))
   || (c =? 133) || (c =? 160) || (c =? 5760)
   || ((8192 <=? c) && (c <=? 8202))
   || (c =? 8232) || (c =? 8233) || (c =? 8239) || (c =? 8287)
   || (c =? 12288))%N.

(** [s.lstrip()], [s.rstrip()] and [s.strip()] with no argument. *)
Fixpoint lstrip (s : str) : str :=
  match s with
  | [] => []
  | c :: s' => if isspace c then lstrip s' else s
  end.

Fixpoint rstrip (s : str) : str :=
  match s with
  | [] => []
  | c :: s' =>
      match rstrip s' with
      | [] => if isspace c then [] else [c]
      | r => c :: r
      end
  end.

Definition strip (s : str) : str := rstrip (lstrip s).

(** [s.startswith(p)]. *)
Fixpoint startswith (s p : str) : bool :=
  match p, s with
  | [], _ => true
  | _ :: _, [] => false
  | a :: p', b :: s' => (a =? b)%N && startswith s' p'
  end.

(** [re.sub(r'\n{3,}', '\n\n', s)]: scanning from the left, every maximal
    run of three or more newlines is replaced by two; shorter runs and all
    other characters are copied.  [pending] counts the newlines of the run
    being read. *)
Definition flush_newlines (pending : nat) : str :=
  replicate (if decide (3 ≤ pending)%nat then 2%nat else pending) nl.

Fixpoint sub_newlines_from (pending : nat) (s : str) : str :=
  match s with
  | [] => flush_newlines pending
  | c :: s' =>
      if (c =? nl)%N then sub_newlines_from (S pending) s'
      else flush_newlines pending ++ c :: sub_newlines_from 0 s'
  end.

Definition sub_newlines (s : str) : str := sub_newlines_from 0 s.

(** ['%d' % n] for a non-negative integer: the decimal digits, the last
    one put down first; a number has no more decimal digits than binary
    ones, which bounds the rounds. *)
Fixpoint decimal_digits (rounds : nat) (n : N) : str :=
  match rounds with
  | O => []
  | S rounds' =>
      (if (n <? 10)%N then [] else decimal_digits rounds' (n / 10)%N)
      ++ [(48 + n mod 10)%N]
  end.

Definition decimal (n : N) : str := decimal_digits (S (N.to_nat (N.log2 n))) n.

(** [int(s)] on a string of decimal digits. *)
Definition int_of_digits (s : str) : N :=
  fold_left (λ acc c, 10 * acc + (c - 48))%N s 0%N.

(** ['%0wd']: zeros on the left up to the width. *)
Definition zero_pad (width : nat) (s : str) : str :=
  replicate (width - length s)%nat 48%N ++ s.

(** [datetime.date]: the fields of a calendar date. *)
Record date : Type := Date { year : N; month : N; day : N }.

(** [d.isoformat()], that is ['%04d-%02d-%02d' % (year, month, day)]. *)
Definition isoformat (d : date) : str :=
  zero_pad 4 (decimal (year d)) ++ lit "-"
  ++ zero_pad 2 (decimal (month d)) ++ lit "-"
  ++ zero_pad 2 (decimal (day d)).

End Py.

Import Py.

(** ** Transcript formatting *)

(** A transcript segment as the script reads it: [seg.get("text", "")] and
    [seg.get("source", "unknown")], [None] standing for a missing key. *)
Record Segment : Type := mkSegment {
  seg_text : option str;
  seg_source : option str
}.

(** The two glyph prefixes: U+1F399 U+FE0F and a space, U+1F4BB and a space. *)
Definition microphone_prefix : str := [127897; 65039; 32]%N.
Definition device_prefix : str := [128187; 32]%N.

(** One turn of the loop of [format_transcript] on the accumulator
    [formatted]. *)
Definition format_segment (formatted : str) (seg : Segment) : str :=
  let text := strip (default [] (seg_text seg)) in
  if truthy text then
    let source := default (lit "unknown") (seg_source seg) in
    let prefix :=
      if decide (source = lit "microphone") then microphone_prefix
      else device_prefix in
    formatted ++ (prefix ++ text ++ [nl; nl])
  else formatted.

(** [format_transcript(segments)]; [None] is Python's [None]. *)
Definition format_transcript (segments : option (list Segment)) : str :=
  match segments with
  | None | Some [] => lit "No transcript available."
  | Some segs => strip (fold_left format_segment segs [])
  end.

(** ** The parse tree and the HTML conversion *)

(** The tree the HTML library hands back.  A string of the tree is either
    one that [get_text] yields (a [NavigableString] proper, [shown]) or one
    it skips (comments, declarations and the like).  A tag carries its
    lower-cased name, its attribute dictionary and its contents. *)
Inductive node : Type :=
  | NavigableString (shown : bool) (s : str)
  | Tag (name : str) (attrs : list (str * str)) (contents : list node).

(** [tag.get_text()]: the shown strings below the tag, in document order. *)
Fixpoint node_text (n : node) : str :=
  match n with
  | NavigableString shown s => if shown then s else []
  | Tag _ _ contents => flat_map node_text contents
  end.

Definition get_text (contents : list node) : str := flat_map node_text contents.

(** [tag.get(key)] on the attribute dictionary. *)
Fixpoint attr_get (attrs : list (str * str)) (key : str) : option str :=
  match attrs with
  | [] => None
  | (k, v) :: attrs' => if decide (k = key) then Some v else attr_get attrs' key
  end.

(** How an f-string prints a value that may be [None]. *)
Definition fmt (o : option str) : str := default (lit "None") o.

(** [for t in soup.find_all(name): t.replace_with(render(t))].

    [find_all] lists the matching tags in document order before the loop
    starts, so an outer match is replaced first, by a string computed from
    its text at that moment; a match nested in it is afterwards replaced
    inside the detached outer tag only, which the document no longer sees.
    Hence every outermost match becomes one string and everything else is
    kept. *)
Fixpoint replace_all (name : str) (render : list (str * str) → str → str)
    (n : node) : node :=
  match n with
  | NavigableString _ _ => n
  | Tag nm attrs contents =>
      if decide (nm = name)
      then NavigableString true (render attrs (flat_map node_text contents))
      else Tag nm attrs (map (replace_all name render) contents)
  end.

Definition render_h3 (_ : list (str * str)) (text : str) : str :=
  lit "### " ++ text ++ [nl].
Definition render_li (_ : list (str * str)) (text : str) : str :=
  lit "- " ++ text ++ [nl].
Definition render_p (_ : list (str * str)) (text : str) : str :=
  text ++ [nl; nl].
Definition render_a (attrs : list (str * str)) (text : str) : str :=
  lit "[" ++ text ++ lit "](" ++ fmt (attr_get attrs (lit "href")) ++ lit ")".

(** The body of [html_to_markdown] after the parse. *)
Definition soup_to_markdown (soup : list node) : str :=
  let soup := map (replace_all (lit "h3") render_h3) soup in
  let soup := map (replace_all (lit "li") render_li) soup in
  let soup := map (replace_all (lit "p") render_p) soup in
  let soup := map (replace_all (lit "a") render_a) soup in
  let text := get_text soup in
  let text := sub_newlines text in
  strip text.

(** [html_to_markdown(html_content)].  The parser
    [BeautifulSoup(html_content, 'html.parser')] is a third-party library:
    the conversion is written over any function from markup to trees. *)
Definition html_to_markdown (BeautifulSoup : str → list node)
    (html_content : str) : str :=
  if truthy html_content then soup_to_markdown (BeautifulSoup html_content)
  else [].



(** What the library does with markup that holds no [<] and no [&] and is
    not made of ASCII blanks only: the document is that one string. *)
Definition keeps_plain_text (BeautifulSoup : str → list node) : Prop :=
  ∀ s, 60%N ∉ s → 38%N ∉ s →
       forallb (λ c, (c =? 32) || (c =? 10) || (c =? 9) || (c =? 12) || (c =? 13))%N s
       = false →
       BeautifulSoup s = [NavigableString true s].

(** *** A reference parser for plain tag soup

    What the library's [html.parser] tree builder does on markup made of
    character data, start tags [<name>] and end tags [</name>] of ordinary
    elements (ASCII letters and digits, no attributes), and stray [<]
    characters.  Character references, attributes, comments, declarations,
    void, raw-text and whitespace-preserving elements are outside this
    fragment: [soup_of] answers [None] there. *)
Module HtmlParser.

Inductive token : Type :=
  | Data (s : str)
  | StartTag (name : str)
  | EndTag (name : str).

Definition is_letter (c : N) : bool :=
  (((65 <=? c) && (c <=? 90)) || ((97 <=? c) && (c <=? 122)))%N.
Definition is_digit (c : N) : bool := ((48 <=? c) && (c <=? 57))%N.
Definition lower (c : N) : N :=
  if ((65 <=? c) && (c <=? 90))%N then (c + 32)%N else c.

Definition ordinary_elements : list str :=
  lit <$> ["a"; "b"; "i"; "em"; "strong"; "span"; "div"; "p"; "ul"; "ol";
           "li"; "h1"; "h2"; "h3"; "h4"; "h5"; "h6"]%string.

Definition ordinary (name : str) : bool :=
  bool_decide (name ∈ ordinary_elements).

(** Where the tokenizer stands: in character data, after a [<], inside the
    name of a start tag, after [</], inside the name of an end tag. *)
Inductive lexer_state : Type :=
  | InText
  | AfterLt
  | InStartName (name : str)
  | AfterLtSlash
  | InEndName (name : str).

Definition lt_sign : N := 60%N.
Definition gt_sign : N := 62%N.
Definition amp_sign : N := 38%N.

Fixpoint lex (st : lexer_state) (s : str) : option (list token) :=
  match s with
  | [] =>
      match st with
      | InText => Some []
      | AfterLt => Some [Data [lt_sign]]
      | _ => None
      end
  | c :: s' =>
      match st with
      | InText =>
          if (c =? lt_sign)%N then lex AfterLt s'
          else if (c =? amp_sign)%N then None
          else cons (Data [c]) <$> lex InText s'
      | AfterLt =>
          if is_letter c then lex (InStartName [lower c]) s'
          else if (c =? 47)%N then lex AfterLtSlash s'
          else if ((c =? 33) || (c =? 63) || (c =? amp_sign))%N then None
          else if (c =? lt_sign)%N then cons (Data [lt_sign]) <$> lex AfterLt s'
          else (λ ts, Data [lt_sign] :: Data [c] :: ts) <$> lex InText s'
      | InStartName name =>
          if is_letter c || is_digit c then lex (InStartName (name ++ [lower c])) s'
          else if (c =? gt_sign)%N && ordinary name
               then cons (StartTag name) <$> lex InText s'
          else None
      | AfterLtSlash =>
          if is_letter c then lex (InEndName [lower c]) s' else None
      | InEndName name =>
          if is_letter c || is_digit c then lex (InEndName (name ++ [lower c])) s'
          else if (c =? gt_sign)%N && ordinary name
               then cons (EndTag name) <$> lex InText s'
          else None
      end
  end.

(** The tree builder: the data read since the last tag, the stack of open
    tags, innermost first, each with the contents it has so far (latest
    first), and the top-level contents of the document (latest first).
    The library appends a tag to its parent when the tag opens; here it
    joins the parent when it closes, which gives the same tree because
    nothing else reaches the parent while the tag is open. *)
Record frame : Type := Frame { frame_name : str; frame_contents : list node }.

Record builder : Type := Builder {
  current_data : str;
  tagStack : list frame;
  document : list node
}.

Definition append_node (n : node) (b : builder) : builder :=
  match tagStack b with
  | [] => Builder (current_data b) [] (n :: document b)
  | Frame nm cs :: stack => Builder (current_data b) (Frame nm (n :: cs) :: stack) (document b)
  end.

Definition ascii_space (c : N) : bool :=
  ((c =? 32) || (c =? 10) || (c =? 9) || (c =? 12) || (c =? 13))%N.

(** [endData]: the pending data becomes one string of the current tag; a
    string of ASCII blanks only is first replaced by one newline or one
    space. *)
Definition endData (b : builder) : builder :=
  match current_data b with
  | [] => b
  | data =>
      let data :=
        if forallb ascii_space data
        then (if bool_decide (nl ∈ data) then [nl] else [32%N])
        else data in
      append_node (NavigableString true data)
        (Builder [] (tagStack b) (document b))
  end.

(** [popTag]: the innermost open tag is complete and joins its parent. *)
Definition popTag (b : builder) : builder :=
  match tagStack b with
  | [] => b
  | Frame nm cs :: stack =>
      append_node (Tag nm [] (rev cs)) (Builder (current_data b) stack (document b))
  end.

(** [_popToTag(name)] when a tag of that name is open: tags are popped up
    to and including the innermost one of that name. *)
Fixpoint popToTag_from (name : str) (stack : list frame) (b : builder) : builder :=
  match stack with
  | [] => b
  | Frame nm _ :: stack' =>
      if decide (nm = name) then popTag b
      else popToTag_from name stack' (popTag b)
  end.

(** An end tag that closes no open tag is outside the fragment (releases of
    the library differ on it). *)
Definition popToTag (name : str) (b : builder) : option builder :=
  if bool_decide (name ∈ frame_name <$> tagStack b)
  then Some (popToTag_from name (tagStack b) b)
  else None.

Definition handle (b : builder) (t : token) : option builder :=
  match t with
  | Data s => Some (Builder (current_data b ++ s) (tagStack b) (document b))
  | StartTag name =>
      let b := endData b in
      Some (Builder (current_data b) (Frame name [] :: tagStack b) (document b))
  | EndTag name => popToTag name (endData b)
  end.

Fixpoint feed (b : builder) (tokens : list token) : option builder :=
  match tokens with
  | [] => Some b
  | t :: tokens' => b' ← handle b t; feed b' tokens'
  end.

Fixpoint pop_all (fuel : list frame) (b : builder) : builder :=
  match fuel with
  | [] => b
  | _ :: fuel' => pop_all fuel' (popTag b)
  end.

(** End of input: the pending data is flushed and every open tag closed. *)
Definition close (b : builder) : list node :=
  let b := endData b in
  rev (document (pop_all (tagStack b) b)).

Definition soup_of (markup : str) : option (list node) :=
  tokens ← lex InText markup;
  close <$> feed (Builder [] [] []) tokens.

(** The reference parser as a function; its value outside the fragment is
    the empty document and carries no meaning. *)
Definition BeautifulSoup (markup : str) : list node :=
  default [] (soup_of markup).

End HtmlParser.

(** ** Meetings and the date filter *)

(** A document of the meeting source: [doc['id']], [doc.get("title")] and
    [doc.get("created_at", "")]. *)
Record Meeting : Type := mkMeeting {
  doc_id : str;
  doc_title : option str;
  doc_created_at : option str
}.

(** [filter_meetings_by_date(documents, target_date)]. *)
Definition filter_meetings_by_date (documents : list Meeting) (target_date : date)
    : list Meeting :=
  let date_str := isoformat target_date in
  List.filter (λ d, startswith (default [] (doc_created_at d)) date_str) documents.

(** ** Blocks of the destination *)

(** A block dictionary: ["type"], ["textStyle"], ["markdown"], ["content"]. *)
Inductive Block : Type :=
  mkBlock (type : str) (textStyle : option str) (markdown : str)
          (content : option (list Block)).

Definition block_type (b : Block) : str := let (t, _, _, _) := b in t.
Definition block_textStyle (b : Block) : option str := let (_, s, _, _) := b in s.
Definition block_markdown (b : Block) : str := let (_, _, m, _) := b in m.
Definition block_content (b : Block) : option (list Block) := let (_, _, _, c) := b in c.

(** A panel of a meeting: [panel.get("title")] and
    [panel.get("original_content", "")]. *)
Record Panel : Type := mkPanel {
  panel_title : option str;
  original_content : option str
}.

(** The header block of the day; the glyph is U+2615 U+FE0F. *)
Definition header_block (yesterday_str : str) : Block :=
  mkBlock (lit "text") (Some (lit "h1"))
    ([9749; 65039]%N ++ lit " Granola Meetings (" ++ yesterday_str ++ lit ")")
    None.

(** [title = doc.get("title") or "Untitled Meeting"]. *)
Definition meeting_title (doc : Meeting) : str :=
  match doc_title doc with
  | Some t => if truthy t then t else lit "Untitled Meeting"
  | None => lit "Untitled Meeting"
  end.

(** The loop over the panels: [summary_html] starts empty and takes the
    content of the first panel titled ["Summary"], where the loop breaks. *)
Fixpoint summary_html (panels : list Panel) : str :=
  match panels with
  | [] => []
  | panel :: panels' =>
      if decide (panel_title panel = Some (lit "Summary"))
      then default [] (original_content panel)
      else summary_html panels'
  end.

(** [content_md]. *)
Definition content_md (BeautifulSoup : str → list node) (panels : list Panel) : str :=
  let summary_html := summary_html panels in
  if truthy summary_html then html_to_markdown BeautifulSoup summary_html
  else lit "No summary available.".

Definition truncation_suffix : str :=
  [nl; nl] ++ lit "... (transcript too long, truncated)".

(** The markdown of the text block nested in the transcript page. *)
Definition transcript_markdown (transcript_text : str) : str :=
  if len transcript_text <? 50000 then transcript_text
  else slice_to 50000 transcript_text ++ truncation_suffix.

(** [meeting_blocks]; the page title's glyph is U+1F4C4. *)
Definition meeting_blocks (title content_md transcript_text : str) : list Block :=
  [ mkBlock (lit "text") (Some (lit "h2")) title None;
    mkBlock (lit "text") None content_md None;
    mkBlock (lit "page") (Some (lit "card")) ([128196]%N ++ lit " Full Transcript")
      (Some [ mkBlock (lit "text") None (transcript_markdown transcript_text) None ]);
    mkBlock (lit "text") None (lit "---") None ].

(** ** Configuration, collaborators and the orchestrator *)

(** The module-level settings, read from the environment when the script is
    loaded; [None] is an unset variable. *)
Record Config : Type := mkConfig {
  GRANOLA_COOKIE : option str;
  CRAFT_TOKEN : option str;
  CRAFT_SPACE_ID : option str;
  X_DEVICE_ID : option str;
  X_WORKSPACE_ID : option str;
  X_VERSION : str
}.

(** [os.getenv(name) or default]. *)
Definition getenv_or (v : option str) (d : str) : str :=
  match v with
  | Some s => if truthy s then s else d
  | None => d
  end.

Definition load_config (getenv : str → option str) : Config :=
  {| GRANOLA_COOKIE := getenv (lit "GRANOLA_COOKIE");
     CRAFT_TOKEN := getenv (lit "CRAFT_TOKEN");
     CRAFT_SPACE_ID := getenv (lit "CRAFT_SPACE_ID");
     X_DEVICE_ID := getenv (lit "X_GRANOLA_DEVICE_ID");
     X_WORKSPACE_ID := getenv (lit "X_GRANOLA_WORKSPACE_ID");
     X_VERSION := getenv_or (getenv (lit "X_CLIENT_VERSION")) (lit "6.462.1") |}.

Definition CRAFT_API_BASE (cfg : Config) : str :=
  lit "https://connect.craft.do/links/" ++ fmt (CRAFT_SPACE_ID cfg) ++ lit "/api/v1".

(** The exceptions the script can meet: the attribute error of a method
    call on [None], and whatever the HTTP library raises (transport error,
    [raise_for_status], a body that is not JSON), with the text of the
    response when the exception carries one. *)
Inductive exn : Type :=
  | AttributeError
  | RequestError (response_text : option str).

(** How a call ends. *)
Inductive outcome (A : Type) : Type :=
  | Returned (a : A)
  | Raised (e : exn).
Arguments Returned {A} a.
Arguments Raised {A} e.

Definition Headers : Type := list (str * option str).

(** The HTTP requests of the script. *)
Inductive request : Type :=
  | GetDocuments (headers : Headers)
  | GetPanels (headers : Headers) (document_id : str)
  | GetTranscript (headers : Headers) (document_id : str)
  | PostBlocks (url : str) (headers : Headers) (blocks : list Block) (date : str).

(** The lines the script prints. *)
Inductive line : Type :=
  | Starting (yesterday_str : str)
  | ErrorFetchingDocuments (e : exn)
  | ErrorFetchingPanels (doc_id : str) (e : exn)
  | ErrorFetchingTranscript (doc_id : str) (e : exn)
  | ErrorSendingToCraft (e : exn)
  | ResponseText (text : str)
  | NoMeetingsFound (yesterday_str : str)
  | FoundMeetings (count : Z)
  | Syncing (title : str)
  | SuccessfullySynced (title : str)
  | FailedToSync (title : str).

Inductive event : Type :=
  | Http (r : request)
  | Print (l : line).

(** [get_headers()]: [GRANOLA_COOKIE.startswith] raises when the cookie is
    [None]. *)
Definition get_headers (cfg : Config) : outcome Headers :=
  let headers :=
    [ (lit "Accept", Some (lit "application/json"));
      (lit "Content-Type", Some (lit "application/json"));
      (lit "X-Granola-Device-Id", X_DEVICE_ID cfg);
      (lit "X-Granola-Workspace-Id", X_WORKSPACE_ID cfg);
      (lit "X-Client-Version", Some (X_VERSION cfg)) ] in
  match GRANOLA_COOKIE cfg with
  | None => Raised AttributeError
  | Some cookie =>
      if startswith cookie (lit "Bearer ")
      then Returned (headers ++ [(lit "Authorization", Some cookie)])
      else Returned (headers ++ [(lit "Cookie", Some cookie)])
  end.

Section Orchestrator.

(** The outside world: its state, and how each endpoint answers a request
    in a given state (the decoded JSON body, or the exception raised by the
    call, by [raise_for_status] or by [json]). *)
Context {World : Type}.
Variable BeautifulSoup : str → list node.
Variable cfg : Config.
Variable documents_endpoint : Headers → World → outcome (list Meeting) * World.
Variable panels_endpoint : Headers → str → World → outcome (list Panel) * World.
Variable transcript_endpoint :
  Headers → str → World → outcome (option (list Segment)) * World.
Variable craft_endpoint :
  str → Headers → list Block → str → World → outcome unit * World.

(** A computation of the script: from a state of the world to an outcome,
    the next state and the events it caused, oldest first. *)
Definition M (A : Type) : Type := World → outcome A * World * list event.

Definition ret {A} (a : A) : M A := λ w, (Returned a, w, []).

Definition bind {A B} (m : M A) (k : A → M B) : M B := λ w,
  match m w with
  | (Returned a, w', evs) => let '(r, w'', evs') := k a w' in (r, w'', evs ++ evs')
  | (Raised e, w', evs) => (Raised e, w', evs)
  end.

Definition emit (ev : event) : M unit := λ w, (Returned (), w, [ev]).

Definition print (l : line) : M unit := emit (Print l).

Definition lift {A} (o : outcome A) : M A := λ w, (o, w, []).

(** [try: m except Exception as e: handler(e)]. *)
Definition try_except {A} (m : M A) (handler : exn → M A) : M A := λ w,
  match m w with
  | (Returned a, w', evs) => (Returned a, w', evs)
  | (Raised e, w', evs) => let '(r, w'', evs') := handler e w' in (r, w'', evs ++ evs')
  end.

(** One request to an endpoint: the request is recorded, then answered. *)
Definition call {A} (r : request) (endpoint : World → outcome A * World) : M A :=
  bind (emit (Http r)) (λ _ w, let '(o, w') := endpoint w in (o, w', [])).

Notation "x ←← m ; k" := (bind m (λ x, k))
  (at level 100, m at next level, right associativity, only parsing).
Notation "m ;;; k" := (bind m (λ _, k))
  (at level 100, right associativity, only parsing).

Definition get_granola_documents : M (list Meeting) :=
  try_except
    (headers ←← lift (get_headers cfg);
     call (GetDocuments headers) (documents_endpoint headers))
    (λ e, print (ErrorFetchingDocuments e) ;;; ret []).

Definition get_document_panels (doc_id : str) : M (list Panel) :=
  try_except
    (headers ←← lift (get_headers cfg);
     call (GetPanels headers doc_id) (panels_endpoint headers doc_id))
    (λ e, print (ErrorFetchingPanels doc_id e) ;;; ret []).

Definition get_document_transcript (doc_id : str) : M (option (list Segment)) :=
  try_except
    (headers ←← lift (get_headers cfg);
     call (GetTranscript headers doc_id) (transcript_endpoint headers doc_id))
    (λ e, print (ErrorFetchingTranscript doc_id e) ;;; ret (Some [])).

(** [send_blocks_to_craft(blocks, target_date_str)]; the result is [None]
    (a bare [return]), [True] or [False]. *)
Definition send_blocks_to_craft (blocks : list Block) (target_date_str : str)
    : M (option bool) :=
  if negb (truthy blocks) then ret None
  else
    let url := CRAFT_API_BASE cfg ++ lit "/blocks" in
    let headers :=
      [ (lit "Authorization", Some (lit "Bearer " ++ fmt (CRAFT_TOKEN cfg)));
        (lit "Content-Type", Some (lit "application/json")) ] in
    try_except
      (call (PostBlocks url headers blocks target_date_str)
            (craft_endpoint url headers blocks target_date_str) ;;;
       ret (Some true))
      (λ e,
         print (ErrorSendingToCraft e) ;;;
         match e with
         | RequestError (Some text) => print (ResponseText text)
         | _ => ret ()
         end ;;;
         ret (Some false)).

(** The body of the loop of [main] for one meeting. *)
Definition sync_meeting (yesterday_str : str) (doc : Meeting) : M unit :=
  let title := meeting_title doc in
  print (Syncing title) ;;;
  panels ←← get_document_panels (doc_id doc);
  let content_md := content_md BeautifulSoup panels in
  transcript_segments ←← get_document_transcript (doc_id doc);
  let transcript_text := format_transcript transcript_segments in
  let meeting_blocks := meeting_blocks title content_md transcript_text in
  success ←← send_blocks_to_craft meeting_blocks yesterday_str;
  match success with
  | Some true => print (SuccessfullySynced title)
  | _ => print (FailedToSync title)
  end.

Fixpoint for_each {A} (xs : list A) (body : A → M unit) : M unit :=
  match xs with
  | [] => ret ()
  | x :: xs' => body x ;;; for_each xs' body
  end.

(** [main()].  [yesterday] is [date.today() - timedelta(days=1)], read from
    the clock; it is the input of the run. *)
Definition main (yesterday : date) : M unit :=
  let yesterday_str := isoformat yesterday in
  print (Starting yesterday_str) ;;;
  docs ←← get_granola_documents;
  let target_docs := filter_meetings_by_date docs yesterday in
  if negb (truthy target_docs) then print (NoMeetingsFound yesterday_str)
  else
    print (FoundMeetings (len target_docs)) ;;;
    send_blocks_to_craft [header_block yesterday_str] yesterday_str ;;;
    for_each target_docs (sync_meeting yesterday_str).

End Orchestrator.

(** ** The wording of the specification

    Definitions that follow the specification's sentences, to be compared
    with the functions of the script above. *)
Module Spec.

(** What one segment contributes: nothing when its trimmed text is empty,
    otherwise the glyph prefix, the trimmed text and two newlines.  The
    prefix is the studio microphone U+1F399 with the variation selector
    U+FE0F and a space when the source is ["microphone"], and the
    personal computer U+1F4BB and a space otherwise. *)
Definition segment_piece (seg : Segment) : str :=
  let text := strip (default [] (seg_text seg)) in
  if decide (text = []) then []
  else (if decide (seg_source seg = Some (lit "microphone"))
        then [127897; 65039; 32]%N else [128187; 32]%N)
       ++ text ++ [nl; nl].

(** A meeting's [created_at] string has the ISO date as a prefix. *)
Definition created_on (target_date : date) (d : Meeting) : Prop :=
  ∃ created_at,
    doc_created_at d = Some created_at ∧ isoformat target_date `prefix_of` created_at.

(** [kept] is exactly the subsequence of [all] of the elements with [P], in
    the order of [all]. *)
Inductive selection {A} (P : A → Prop) : list A → list A → Prop :=
  | selection_nil : selection P [] []
  | selection_keep x all kept :
      P x → selection P all kept → selection P (x :: all) (x :: kept)
  | selection_drop x all kept :
      ¬ P x → selection P all kept → selection P (x :: all) kept.

(** The first panel whose title is exactly ["Summary"]. *)
Definition summary_panel (panels : list Panel) : option Panel :=
  snd <$> list_find (λ p, panel_title p = Some (lit "Summary")) panels.


(** The sentence on the summary block: it holds the conversion of the
    content of the first panel titled "Summary", and it is the literal
    "No summary available." if and only if there is no such panel. *)
Definition summary_claim (BeautifulSoup : str → list node) (panels : list Panel)
    : Prop :=
  (∀ p, summary_panel panels = Some p →
        content_md BeautifulSoup panels
        = html_to_markdown BeautifulSoup (default [] (original_content p)))
  ∧ (content_md BeautifulSoup panels = lit "No summary available."
     ↔ summary_panel panels = None).

(** A decision procedure for the absence of such a run: [pending] is the
    number of newlines that end the text read so far. *)
Fixpoint newline_runs_below3 (pending : nat) (s : str) : bool :=
  match s with
  | [] => true
  | c :: s' =>
      if (c =? nl)%N then (pending <? 2)%nat && newline_runs_below3 (S pending) s'
      else newline_runs_below3 0 s'
  end.





(** The sentence on applying the conversion to its own output. *)
Definition idempotent_claim (BeautifulSoup : str → list node) (x : str) : Prop :=
  html_to_markdown BeautifulSoup (html_to_markdown BeautifulSoup x)
  = html_to_markdown BeautifulSoup x.

(** The block lists handed to the destination in a run, oldest first. *)
Definition submissions (evs : list event) : list (list Block) :=
  omap (λ ev, match ev with
              | Http (PostBlocks _ _ blocks _) => Some blocks
              | _ => None
              end) evs.

(** The sentence on a missing credential: with the session cookie unset in
    the environment the run fails, and the fetch of the documents does not
    come back with the empty result. *)
Definition missing_cookie_claim {World : Type} (BeautifulSoup : str → list node)
    (getenv : str → option str)
    (documents_endpoint : Headers → World → outcome (list Meeting) * World)
    (panels_endpoint : Headers → str → World → outcome (list Panel) * World)
    (transcript_endpoint :
       Headers → str → World → outcome (option (list Segment)) * World)
    (craft_endpoint : str → Headers → list Block → str → World → outcome unit * World)
    (yesterday : date) (w : World) : Prop :=
  getenv (lit "GRANOLA_COOKIE") = None →
  (∃ e, (main BeautifulSoup (load_config getenv) documents_endpoint panels_endpoint
              transcript_endpoint craft_endpoint yesterday w).1.1 = Raised e)
  ∧ (get_granola_documents (load_config getenv) documents_endpoint w).1.1
    ≠ Returned [].

End Spec.

(** ** Predicates of the proofs *)


(** A string that is empty or starts with a character that is not white
    space. *)
Definition clean_head (s : str) : Prop :=
  match s with [] => True | c :: _ => isspace c = false end.

(** ** Inputs used in the examples *)

(** An environment in which no variable is set. *)
Definition empty_environment : str → option str := λ _, None.

(** A world without state whose endpoints refuse every request. *)
Definition refuse {A} : unit → outcome A * unit := λ w, (Raised (RequestError None), w).

(** Two meetings of 5 January 2024 around one of the day after. *)
Definition three_documents : list Meeting :=
  [ mkMeeting (lit "m1") (Some (lit "Planning")) (Some (lit "2024-01-05T09:00:00Z"));
    mkMeeting (lit "m2") (Some (lit "Other day")) (Some (lit "2024-01-06T09:00:00Z"));
    mkMeeting (lit "m3") None (Some (lit "2024-01-05T15:30:00Z")) ].

Definition session_config : Config :=
  mkConfig (Some (lit "session=abc")) (Some (lit "token")) (Some (lit "space"))
           None None (lit "6.462.1").

(** A source that serves the three documents, one "Summary" panel and a
    one-segment transcript for every meeting. *)
Definition serve_documents : Headers → nat → outcome (list Meeting) * nat :=
  λ _ w, (Returned three_documents, w).
Definition serve_panels : Headers → str → nat → outcome (list Panel) * nat :=
  λ _ _ w, (Returned [mkPanel (Some (lit "Summary")) (Some (lit "<p>Agenda</p>"))], w).
Definition serve_transcript
    : Headers → str → nat → outcome (option (list Segment)) * nat :=
  λ _ _ w, (Returned (Some [mkSegment (Some (lit "hi")) (Some (lit "microphone"))]), w).

(** A world that counts the submissions it has received and accepts only
    the first of them (the header): every meeting's submission fails. *)
Definition accept_first (w : nat) : outcome unit * nat :=
  (match w with O => Returned () | S _ => Raised (RequestError (Some (lit "busy"))) end,
   S w).
Definition craft_accept_first
    : str → Headers → list Block → str → nat → outcome unit * nat :=
  λ _ _ _ _, accept_first.

(** The run of 5 January 2024 against that source and that destination. *)
Definition sample_run : outcome unit * nat * list event :=
  main HtmlParser.BeautifulSoup session_config serve_documents serve_panels
       serve_transcript craft_accept_first (Date 2024 1 5) 0%nat.

(** A run with no variable set, against endpoints that refuse everything. *)
Definition unconfigured_run : unit → outcome unit * unit * list event :=
  main HtmlParser.BeautifulSoup (load_config empty_environment)
       (λ _, refuse) (λ _ _, refuse) (λ _ _, refuse) (λ _ _ _ _, refuse)
       (Date 2024 1 5).

(** One system-audio segment of 49,998 letters: its formatted transcript is
    the device glyph, a space and the letters, 50,000 characters in all. *)
Definition boundary_transcript : option (list Segment) :=
  Some [mkSegment (Some (replicate (Z.to_nat 49998) 97%N)) (Some (lit "system"))].

(** ** Readings of headers, runs and strings

    What the further properties below are stated with. *)

(** [headers.get(key)] on a header dictionary; the value itself may be
    [None]. *)
Fixpoint header_get (headers : Headers) (key : str) : option (option str) :=
  match headers with
  | [] => None
  | (k, v) :: headers' => if decide (k = key) then Some v else header_get headers' key
  end.

(** The HTTP requests of a run, oldest first. *)
Definition requests (evs : list event) : list request :=
  omap (λ ev, match ev with Http r => Some r | Print _ => None end) evs.

(** The lines a run printed, oldest first. *)
Definition printed (evs : list event) : list line :=
  omap (λ ev, match ev with Print l => Some l | Http _ => None end) evs.

(** The per-meeting verdicts a run printed: the title and whether the line
    was the success line. *)
Definition verdicts (evs : list event) : list (str * bool) :=
  omap (λ ev, match ev with
              | Print (SuccessfullySynced title) => Some (title, true)
              | Print (FailedToSync title) => Some (title, false)
              | _ => None
              end) evs.

(** Whether an endpoint answered. *)
Definition answered {A} (o : outcome A) : bool :=
  match o with Returned _ => true | Raised _ => false end.

(** The answer of an endpoint, or a default when it raised. *)
Definition answer_or {A} (d : A) (o : outcome A) : A :=
  match o with Returned a => a | Raised _ => d end.

(** The characters of a string that are not white space, in order. *)
Definition nonspace (s : str) : str := List.filter (λ c, negb (isspace c)) s.

(** A string that is empty or ends with a character that is not white
    space. *)
Definition clean_last (s : str) : Prop :=
  match last s with None => True | Some c => isspace c = false end.

(** The kind of a request and the meeting it is about. *)
Inductive request_kind : Type :=
  | Documents
  | Panels (document_id : str)
  | Transcript (document_id : str)
  | Submit (blocks : nat).

Definition kind_of (r : request) : request_kind :=
  match r with
  | GetDocuments _ => Documents
  | GetPanels _ document_id => Panels document_id
  | GetTranscript _ document_id => Transcript document_id
  | PostBlocks _ _ blocks _ => Submit (length blocks)
  end.

(** An environment in which only the session cookie is set. *)
Definition cookie_environment : str → option str :=
  λ name, if decide (name = lit "GRANOLA_COOKIE") then Some (lit "session=abc") else None.

Definition cookie_headers : Headers :=
  [ (lit "Accept", Some (lit "application/json"));
    (lit "Content-Type", Some (lit "application/json"));
    (lit "X-Granola-Device-Id", None);
    (lit "X-Granola-Workspace-Id", None);
    (lit "X-Client-Version", Some (lit "6.462.1"));
    (lit "Cookie", Some (lit "session=abc")) ].

(** The documents a run works on: what the fetch of the documents returns
    in the first state of the world. *)
Definition run_documents {World : Type} (cfg : Config)
    (documents_endpoint : Headers → World → outcome (list Meeting) * World)
    (w : World) : list Meeting :=
  answer_or [] (get_granola_documents cfg documents_endpoint w).1.1.

(** The request that submits blocks, as [send_blocks_to_craft] builds it. *)
Definition craft_url (cfg : Config) : str :=
  lit "https://connect.craft.do/links/" ++ fmt (CRAFT_SPACE_ID cfg) ++ lit "/api/v1/blocks".

Definition craft_headers (cfg : Config) : Headers :=
  [ (lit "Authorization", Some (lit "Bearer " ++ fmt (CRAFT_TOKEN cfg)));
    (lit "Content-Type", Some (lit "application/json")) ].

(** The lines printed when a submission raised. *)
Definition craft_error_lines (e : exn) : list event :=
  Print (ErrorSendingToCraft e)
  :: match e with
     | RequestError (Some text) => [Print (ResponseText text)]
     | _ => []
     end.

(** A world without state whose endpoint answers every request with [a]. *)
Definition serve {A} (a : A) : unit → outcome A * unit := λ w, (Returned a, w).

(** The source of the examples on a world without state. *)
Definition documents_served : Headers → unit → outcome (list Meeting) * unit :=
  λ _, serve three_documents.


Definition degraded_run : outcome unit * unit * list event :=
  main HtmlParser.BeautifulSoup session_config documents_served (λ _ _, refuse)
       (λ _ _, refuse) (λ _ _ _ _, serve ()) (Date 2024 1 5) ().

(** The run of 7 January 2024, a day without meetings. *)
Definition idle_run : outcome unit * nat * list event :=
  main HtmlParser.BeautifulSoup session_config serve_documents serve_panels
       serve_transcript craft_accept_first (Date 2024 1 7) 0%nat.


(** A segment whose text is missing, empty or white space only. *)
Definition blank_segment (seg : Segment) : Prop :=
  strip (default [] (seg_text seg)) = [].

(** The glyph prefix of a segment. *)
Definition segment_prefix (seg : Segment) : str :=
  if decide (seg_source seg = Some (lit "microphone")) then microphone_prefix
  else device_prefix.

(** A date within the range of the calendar. *)
Definition calendar_date (d : date) : Prop :=
  (year d < 10000)%N ∧ (month d < 100)%N ∧ (day d < 100)%N.

(** Where the submissions of a run went: URL, headers and date of each. *)
Definition submission_targets (evs : list event) : list (str * Headers * str) :=
  omap (λ ev, match ev with
              | Http (PostBlocks url headers _ date) => Some (url, headers, date)
              | _ => None
              end) evs.

(** A string that is empty or starts with one of the two glyphs of the
    transcript, U+1F399 or U+1F4BB. *)
Definition glyph_head (s : str) : Prop :=
  match s with [] => True | c :: _ => c = 127897%N ∨ c = 128187%N end.

(** * Properties *)

(** ** Python strings *)

Lemma truthy_nonempty {A} (s : list A) : truthy s = true ↔ s ≠ [].
Proof. destruct s; simpl; split; congruence. Qed.

Lemma truthy_false {A} (s : list A) : truthy s = false ↔ s = [].
Proof. destruct s; simpl; split; congruence. Qed.

Lemma lstrip_clean_head s : clean_head (lstrip s).
Proof.
  induction s as [|c s IH]; simpl; [done|].
  destruct (isspace c) eqn:Hc; [done|]. simpl. done.
Qed.

Lemma lstrip_id s : clean_head s → lstrip s = s.
Proof. destruct s as [|c s]; simpl; [done|]. by intros ->. Qed.

Lemma rstrip_clean_head s : clean_head s → clean_head (rstrip s).
Proof.
  destruct s as [|c s]; simpl; [done|]. intros Hc.
  destruct (rstrip s); simpl; [by rewrite Hc|done].
Qed.

Lemma rstrip_idemp s : rstrip (rstrip s) = rstrip s.
Proof.
  induction s as [|c s IH]; simpl; [done|].
  destruct (rstrip s) as [|d r] eqn:Hr.
  - destruct (isspace c) eqn:Hc; simpl; [done|]. by rewrite Hc.
  - change (rstrip (c :: d :: r)) with
      (match rstrip (d :: r) with [] => if isspace c then [] else [c] | r' => c :: r' end).
    by rewrite IH.
Qed.

Lemma strip_idemp s : strip (strip s) = strip s.
Proof.
  unfold strip. rewrite (lstrip_id (rstrip _)).
  - apply rstrip_idemp.
  - apply rstrip_clean_head, lstrip_clean_head.
Qed.

Lemma strip_clean_head s : clean_head (strip s).
Proof. apply rstrip_clean_head, lstrip_clean_head. Qed.

Lemma lstrip_suffix s : lstrip s `suffix_of` s.
Proof.
  induction s as [|c s IH]; simpl; [done|].
  destruct (isspace c); [by apply suffix_cons_r|done].
Qed.

Lemma rstrip_prefix s : rstrip s `prefix_of` s.
Proof.
  induction s as [|c s IH]; simpl; [done|].
  destruct (rstrip s) as [|d r].
  - destruct (isspace c); [apply prefix_nil|]. apply prefix_cons, prefix_nil.
  - by apply prefix_cons.
Qed.

Lemma rstrip_app_clean s c : isspace c = false → rstrip (s ++ [c]) = s ++ [c].
Proof.
  intros Hc. induction s as [|d s IH]; simpl; [by rewrite Hc|].
  rewrite IH. by destruct s.
Qed.

Lemma rstrip_app_space s c : isspace c = true → rstrip (s ++ [c]) = rstrip s.
Proof.
  intros Hc. induction s as [|d s IH]; simpl; [by rewrite Hc|]. by rewrite IH.
Qed.

Lemma startswith_prefix s p : startswith s p = true ↔ p `prefix_of` s.
Proof.
  revert s. induction p as [|a p IH]; intros s; simpl.
  - destruct s; (split; [intros _; apply prefix_nil|done]).
  - destruct s as [|b s]; simpl.
    + split; [done|]. intros [k Hk]. discriminate.
    + rewrite andb_true_iff, N.eqb_eq, IH. split.
      * intros [-> ?]. by apply prefix_cons.
      * intros [k Hk]. injection Hk as -> ->. split; [done|]. by exists k.
Qed.

(** ** Transcript formatting *)

Lemma format_segment_piece formatted seg :
  format_segment formatted seg = formatted ++ Spec.segment_piece seg.
Proof.
  unfold format_segment, Spec.segment_piece.
  destruct (strip (default [] (seg_text seg))) as [|c text] eqn:Ht; simpl.
  - by rewrite app_nil_r.
  - destruct (seg_source seg) as [src|]; simpl.
    + destruct (decide (src = lit "microphone")) as [->|Hne].
      * by rewrite decide_True.
      * rewrite decide_False; [done|congruence].
    + done.
Qed.

Lemma fold_format_segment segs formatted :
  fold_left format_segment segs formatted
  = formatted ++ concat (Spec.segment_piece <$> segs).
Proof.
  revert formatted. induction segs as [|seg segs IH]; intros formatted; simpl.
  - by rewrite app_nil_r.
  - by rewrite IH, format_segment_piece, <- app_assoc.
Qed.

Lemma segment_piece_clean_head seg rest :
  clean_head rest → clean_head (Spec.segment_piece seg ++ rest).
Proof.
  intros Hrest. unfold Spec.segment_piece.
  destruct (decide _); [done|].
  by destruct (decide (seg_source seg = _)).
Qed.

Lemma pieces_clean_head segs : clean_head (concat (Spec.segment_piece <$> segs)).
Proof.
  induction segs as [|seg segs IH]; simpl; [done|].
  by apply segment_piece_clean_head.
Qed.

(** C7. An absent or empty segment sequence formats to the literal
    "No transcript available."; any other sequence formats to the
    concatenation, in input order, of each segment's piece (glyph prefix,
    trimmed text, two newlines; nothing for a segment whose trimmed text is
    empty) with trailing white space trimmed, where the prefix is the
    microphone glyph U+1F399 U+FE0F and a space when the source is
    "microphone" and the device glyph U+1F4BB and a space otherwise; the
    single microphone segment "hi" formats to the microphone glyph, a
    space and "hi", and the same segment from any other source, or from
    none, to the device glyph, a space and "hi". *)
Theorem format_transcript_spec :
  format_transcript None = lit "No transcript available."
  ∧ format_transcript (Some []) = lit "No transcript available."
  ∧ (∀ seg segs,
       format_transcript (Some (seg :: segs))
       = rstrip (concat (Spec.segment_piece <$> seg :: segs)))
  ∧ format_transcript (Some [mkSegment (Some (lit "hi")) (Some (lit "microphone"))])
    = [127897; 65039; 32]%N ++ lit "hi"
  ∧ (∀ source, source ≠ Some (lit "microphone") →
       format_transcript (Some [mkSegment (Some (lit "hi")) source])
       = [128187; 32]%N ++ lit "hi").
Proof.
  split_and!; [done|done| |by vm_compute|].
  - intros seg segs. unfold format_transcript, strip.
    rewrite fold_format_segment, app_nil_l.
    by rewrite lstrip_id by apply pieces_clean_head.
  - intros source Hsource. unfold format_transcript.
    rewrite fold_format_segment. unfold Spec.segment_piece.
    cbn [fmap list_fmap concat seg_text seg_source from_option id].
    change (strip (lit "hi")) with (lit "hi").
    rewrite decide_False by done. by rewrite decide_False by done.
Qed.

(** ** The transcript page *)

Lemma transcript_markdown_below t :
  len t < 50000 → transcript_markdown t = t.
Proof.
  intros H. unfold transcript_markdown.
  destruct (Z.ltb_spec (len t) 50000); [done|lia].
Qed.

Lemma transcript_markdown_from t :
  50000 ≤ len t →
  transcript_markdown t = slice_to 50000 t ++ truncation_suffix
  ∧ len (slice_to 50000 t) = 50000.
Proof.
  intros H. unfold transcript_markdown.
  destruct (Z.ltb_spec (len t) 50000); [lia|]. split; [done|].
  unfold len, slice_to in *. rewrite length_take. lia.
Qed.

Lemma transcript_markdown_limit t :
  len t = 50000 → transcript_markdown t = t ++ truncation_suffix.
Proof.
  intros H. destruct (transcript_markdown_from t) as [-> _]; [lia|].
  unfold slice_to, len in *. rewrite take_ge; [done|lia].
Qed.

Lemma strip_letters n : strip (replicate (S n) 97%N) = replicate (S n) 97%N.
Proof.
  unfold strip. rewrite lstrip_id by done.
  rewrite replicate_S_end. by apply rstrip_app_clean.
Qed.

(** One segment of system audio made of letters formats to the device
    glyph, a space and the letters. *)
Lemma format_letters n :
  format_transcript (Some [mkSegment (Some (replicate (S n) 97%N)) (Some (lit "system"))])
  = device_prefix ++ replicate (S n) 97%N.
Proof.
  unfold format_transcript. rewrite fold_format_segment.
  unfold Spec.segment_piece.
  cbn [fmap list_fmap concat seg_text seg_source from_option id].
  rewrite strip_letters, app_nil_l, app_nil_r.
  rewrite decide_False by done. rewrite decide_False by done.
  unfold strip. rewrite lstrip_id by done.
  change [nl; nl] with ([nl] ++ [nl]). rewrite !app_assoc.
  rewrite !rstrip_app_space by done.
  rewrite replicate_S_end, app_assoc. by apply rstrip_app_clean.
Qed.

(** C1. What the script does at the limit itself: a formatted transcript of
    exactly 50,000 characters is not left unchanged; the whole text is
    followed by the truncation suffix. *)
Theorem transcript_markdown_at_limit :
  len (format_transcript boundary_transcript) = 50000
  ∧ transcript_markdown (format_transcript boundary_transcript)
    = format_transcript boundary_transcript ++ truncation_suffix
  ∧ transcript_markdown (format_transcript boundary_transcript)
    ≠ format_transcript boundary_transcript.
Proof.
  assert (Hlen : len (format_transcript boundary_transcript) = 50000).
  { unfold boundary_transcript.
    replace (Z.to_nat 49998) with (S (Z.to_nat 49997)) by lia.
    rewrite format_letters. unfold len.
    rewrite length_app, length_replicate.
    change (length device_prefix) with 2%nat. lia. }
  split_and!; [done|by apply transcript_markdown_limit|].
  rewrite transcript_markdown_limit by done.
  intros Heq. apply (f_equal length) in Heq.
  rewrite length_app in Heq.
  assert (length truncation_suffix = 38%nat) by reflexivity. lia.
Qed.

(** ** The date filter *)

Example filter_three_documents :
  filter_meetings_by_date three_documents (Date 2024 1 5)
  = [ mkMeeting (lit "m1") (Some (lit "Planning")) (Some (lit "2024-01-05T09:00:00Z"));
      mkMeeting (lit "m3") None (Some (lit "2024-01-05T15:30:00Z")) ].
Proof. vm_compute. reflexivity. Qed.

Example isoformat_pads : isoformat (Date 2024 1 5) = lit "2024-01-05".
Proof. reflexivity. Qed.

Lemma decimal_digits_value rounds n :
  (n < 10 ^ N.of_nat rounds)%N → int_of_digits (decimal_digits rounds n) = n.
Proof.
  revert n. induction rounds as [|rounds IH]; intros n Hn.
  - change (n < 1)%N in Hn. unfold int_of_digits. simpl. lia.
  - unfold int_of_digits in *. cbn [decimal_digits].
    rewrite fold_left_app. cbn [fold_left].
    destruct (N.ltb_spec n 10) as [Hsmall|Hbig]; cbn [fold_left].
    + rewrite N.mod_small by done. clear Hn IH. lia.
    + rewrite IH.
      * rewrite (N.add_comm 48), N.add_sub. symmetry. by apply N.div_mod.
      * apply N.Div0.div_lt_upper_bound.
        by rewrite Nat2N.inj_succ, N.pow_succ_r' in Hn.
Qed.

(** The digits printed for a number read back as that number. *)
Lemma decimal_value n : int_of_digits (decimal n) = n.
Proof.
  apply decimal_digits_value. rewrite Nat2N.inj_succ, N2Nat.id.
  destruct n as [|p]; [done|].
  apply N.lt_le_trans with (2 ^ N.succ (N.log2 (N.pos p)))%N.
  - by apply N.log2_spec.
  - apply N.pow_le_mono_l. lia.
Qed.

Lemma decimal_digits_length rounds k n :
  (n < 10 ^ N.of_nat (S k))%N → (length (decimal_digits rounds n) ≤ S k)%nat.
Proof.
  revert k n. induction rounds as [|rounds IH]; intros k n Hn; simpl; [lia|].
  rewrite length_app. simpl.
  destruct (N.ltb_spec n 10) as [Hsmall|Hbig]; simpl; [lia|].
  destruct k as [|k]; [simpl in Hn; lia|].
  enough (length (decimal_digits rounds (n / 10)) ≤ S k)%nat by lia.
  apply IH. apply N.Div0.div_lt_upper_bound.
  by rewrite (Nat2N.inj_succ (S k)), N.pow_succ_r' in Hn.
Qed.

Lemma zero_pad_length width s :
  (length s ≤ width)%nat → length (zero_pad width s) = width.
Proof. intros H. unfold zero_pad. rewrite length_app, length_replicate. lia. Qed.

(** On a calendar date, whose year is below 10,000 and whose month and day
    are below 100, [isoformat] has the shape [YYYY-MM-DD]. *)
Lemma isoformat_shape d :
  (year d < 10000)%N → (month d < 100)%N → (day d < 100)%N →
  ∃ yyyy mm dd,
    isoformat d = yyyy ++ lit "-" ++ mm ++ lit "-" ++ dd
    ∧ length yyyy = 4%nat ∧ length mm = 2%nat ∧ length dd = 2%nat.
Proof.
  intros Hy Hm Hd. eexists _, _, _. split; [reflexivity|].
  split_and!; apply zero_pad_length, decimal_digits_length; done.
Qed.

Lemma isoformat_nonempty d : isoformat d ≠ [].
Proof.
  unfold isoformat. intros H. apply (f_equal length) in H.
  rewrite !length_app in H. simpl in H. lia.
Qed.

Lemma created_on_startswith target_date d :
  startswith (default [] (doc_created_at d)) (isoformat target_date) = true
  ↔ Spec.created_on target_date d.
Proof.
  rewrite startswith_prefix. unfold Spec.created_on.
  destruct (doc_created_at d) as [created_at|]; simpl.
  - split; [by exists created_at|]. by intros (? & [= <-] & ?).
  - split; [|by intros (? & [=] & ?)].
    intros [k Hk]. symmetry in Hk. apply app_eq_nil in Hk as [Hk _].
    by apply isoformat_nonempty in Hk.
Qed.

(** C8. For every sequence of meetings and every target date, the filter
    returns exactly the subsequence of the meetings whose [created_at]
    string has the date's ISO representation as a prefix, in input order. *)
Theorem filter_meetings_by_date_selects documents target_date :
  Spec.selection (Spec.created_on target_date) documents
    (filter_meetings_by_date documents target_date)
  ∧ filter_meetings_by_date documents target_date `sublist_of` documents.
Proof.
  unfold filter_meetings_by_date.
  induction documents as [|d documents [IHsel IHsub]]; simpl.
  - split; constructor.
  - destruct (startswith _ _) eqn:Hd.
    + apply created_on_startswith in Hd.
      split; [by constructor|by apply sublist_skip].
    + split; [|by apply sublist_cons].
      constructor; [|done]. rewrite <- created_on_startswith. congruence.
Qed.

(** ** The block builder *)

(** C9. Whatever the title, the summary markdown and the transcript
    markdown, a meeting's group is four blocks in this order: the level-2
    heading with the title ("Untitled Meeting" when the title is absent or
    empty), the plain text block with the summary, the page titled
    "Full Transcript" (after the page glyph U+1F4C4) holding exactly one
    text block, and the plain text block "---".  The nested block holds
    the transcript itself when that is shorter than 50,000 characters, and
    otherwise its first 50,000 characters followed by the truncation
    notice. *)
Theorem meeting_blocks_shape (doc : Meeting) (summary transcript : str) :
  ∃ heading body page separator inner,
    meeting_blocks (meeting_title doc) summary transcript
    = [heading; body; page; separator]
    ∧ heading = mkBlock (lit "text") (Some (lit "h2")) (meeting_title doc) None
    ∧ meeting_title doc
      = match doc_title doc with
        | Some (c :: title) => c :: title
        | Some [] | None => lit "Untitled Meeting"
        end
    ∧ body = mkBlock (lit "text") None summary None
    ∧ page = mkBlock (lit "page") (Some (lit "card"))
               ([128196]%N ++ lit " Full Transcript") (Some [inner])
    ∧ inner
      = mkBlock (lit "text") None
          (if Z.of_nat (length transcript) <? 50000 then transcript
           else take (Z.to_nat 50000) transcript
                ++ [10; 10]%N ++ lit "... (transcript too long, truncated)")
          None
    ∧ separator = mkBlock (lit "text") None (lit "---") None.
Proof.
  eexists _, _, _, _, _. split; [reflexivity|].
  split_and!; try reflexivity.
  unfold meeting_title. by destruct (doc_title doc) as [[|c title]|].
Qed.

(** ** The summary block *)

Lemma summary_html_panel panels :
  summary_html panels
  = match Spec.summary_panel panels with
    | Some p => default [] (original_content p)
    | None => []
    end.
Proof.
  unfold Spec.summary_panel.
  induction panels as [|panel panels IH]; simpl; [done|].
  destruct (decide (panel_title panel = Some (lit "Summary"))); simpl; [done|].
  rewrite IH. by destruct (list_find _ panels) as [[i p]|].
Qed.

(** C2, as the specification words it, fails on a "Summary" panel whose
    content is empty: the block holds the placeholder although the panel
    exists, and the conversion of the empty content is the empty string. *)
Lemma summary_claim_fails :
  ¬ Spec.summary_claim HtmlParser.BeautifulSoup
      [mkPanel (Some (lit "Summary")) (Some [])].
Proof.
  intros [_ [Hplaceholder _]].
  assert (He : Spec.summary_panel [mkPanel (Some (lit "Summary")) (Some [])] = None)
    by (apply Hplaceholder; reflexivity).
  vm_compute in He. discriminate He.
Qed.

(** C2, amended. The summary block holds the conversion of the content of
    the first panel titled exactly "Summary" when that content is not
    empty; it holds the literal "No summary available." when there is no
    such panel and when the content of that panel is absent or empty. *)
Theorem content_md_cases (BeautifulSoup : str → list node) (panels : list Panel) :
  match Spec.summary_panel panels with
  | Some p =>
      match original_content p with
      | Some (c :: html) =>
          content_md BeautifulSoup panels = html_to_markdown BeautifulSoup (c :: html)
      | Some [] | None =>
          content_md BeautifulSoup panels = lit "No summary available."
      end
  | None => content_md BeautifulSoup panels = lit "No summary available."
  end.
Proof.
  unfold content_md. rewrite summary_html_panel.
  destruct (Spec.summary_panel panels) as [p|]; [|done].
  by destruct (original_content p) as [[|c html]|].
Qed.

(** ** The orchestrator *)

Lemma submissions_app evs evs' :
  Spec.submissions (evs ++ evs') = Spec.submissions evs ++ Spec.submissions evs'.
Proof. apply omap_app. Qed.

Section OrchestratorFacts.

Context {World : Type}.
Variable BeautifulSoup : str → list node.
Variable cfg : Config.
Variable documents_endpoint : Headers → World → outcome (list Meeting) * World.
Variable panels_endpoint : Headers → str → World → outcome (list Panel) * World.
Variable transcript_endpoint :
  Headers → str → World → outcome (option (list Segment)) * World.
Variable craft_endpoint :
  str → Headers → list Block → str → World → outcome unit * World.

Local Abbreviation fetch_panels := (get_document_panels cfg panels_endpoint).
Local Abbreviation fetch_transcript := (get_document_transcript cfg transcript_endpoint).
Local Abbreviation send := (send_blocks_to_craft cfg craft_endpoint).
Local Abbreviation sync :=
  (sync_meeting BeautifulSoup cfg panels_endpoint transcript_endpoint craft_endpoint).

Lemma bind_returned {A B} (m : M A) (k : A → M B) (w w' : World) a evs :
  m w = (Returned a, w', evs) →
  bind m k w = (let '(r, w'', evs') := k a w' in (r, w'', evs ++ evs')).
Proof. unfold bind. by intros ->. Qed.

(** A fetch never raises and submits nothing. *)
Lemma get_document_panels_returns doc_id (w : World) :
  ∃ panels w' evs,
    fetch_panels doc_id w = (Returned panels, w', evs) ∧ Spec.submissions evs = [].
Proof.
  unfold get_document_panels, try_except, bind, lift, call, bind, emit, print, emit, ret.
  destruct (get_headers cfg) as [headers|e]; simpl.
  - destruct (panels_endpoint headers doc_id w) as [[panels|e] w']; simpl; eauto.
  - eauto.
Qed.

Lemma get_document_transcript_returns doc_id (w : World) :
  ∃ segments w' evs,
    fetch_transcript doc_id w = (Returned segments, w', evs)
    ∧ Spec.submissions evs = [].
Proof.
  unfold get_document_transcript, try_except, bind, lift, call, bind, emit, print, emit, ret.
  destruct (get_headers cfg) as [headers|e]; simpl.
  - destruct (transcript_endpoint headers doc_id w) as [[segments|e] w']; simpl; eauto.
  - eauto.
Qed.

(** A submission of at least one block makes exactly one request, whether
    the destination accepts it or not, and never raises. *)
Lemma send_blocks_to_craft_submits block blocks date (w : World) :
  ∃ success w' evs,
    send (block :: blocks) date w = (Returned (Some success), w', evs)
    ∧ Spec.submissions evs = [block :: blocks].
Proof.
  unfold send_blocks_to_craft, try_except, bind, call, bind, emit, print, emit, ret.
  simpl.
  destruct (craft_endpoint _ _ _ _ w) as [[[]|[|[text|]]] w']; simpl; eauto.
Qed.

Lemma sync_meeting_submits date doc (w : World) :
  ∃ w' evs panels segments,
    sync date doc w = (Returned (), w', evs)
    ∧ Spec.submissions evs
      = [meeting_blocks (meeting_title doc) (content_md BeautifulSoup panels)
           (format_transcript segments)].
Proof.
  unfold sync_meeting.
  destruct (get_document_panels_returns (doc_id doc) w) as (panels & w1 & evs1 & Hp & Hs1).
  destruct (get_document_transcript_returns (doc_id doc) w1)
    as (segments & w2 & evs2 & Ht & Hs2).
  destruct (send_blocks_to_craft_submits
              (mkBlock (lit "text") (Some (lit "h2")) (meeting_title doc) None)
              (tail (meeting_blocks (meeting_title doc)
                       (content_md BeautifulSoup panels) (format_transcript segments)))
              date w2) as (success & w3 & evs3 & Hsend & Hs3).
  exists w3, ([Print (Syncing (meeting_title doc))] ++ evs1 ++ evs2 ++ evs3 ++
              [Print (if success then SuccessfullySynced (meeting_title doc)
                      else FailedToSync (meeting_title doc))]), panels, segments.
  split.
  - unfold bind at 1. unfold print at 1, emit at 1.
    rewrite (bind_returned _ _ _ _ _ _ Hp), (bind_returned _ _ _ _ _ _ Ht).
    change (meeting_blocks _ _ _) with
      (mkBlock (lit "text") (Some (lit "h2")) (meeting_title doc) None
       :: tail (meeting_blocks (meeting_title doc)
                  (content_md BeautifulSoup panels) (format_transcript segments))).
    rewrite (bind_returned _ _ _ _ _ _ Hsend).
    by destruct success.
  - rewrite !submissions_app, Hs1, Hs2, Hs3. by destruct success.
Qed.

Lemma for_each_sync_submits date docs (w : World) :
  ∃ w' evs groups,
    for_each docs (sync date) w = (Returned (), w', evs)
    ∧ Spec.submissions evs = groups
    ∧ Forall2 (λ doc group, ∃ panels segments,
                 group = meeting_blocks (meeting_title doc)
                           (content_md BeautifulSoup panels)
                           (format_transcript segments)) docs groups.
Proof.
  revert w. induction docs as [|doc docs IH]; intros w; simpl.
  - exists w, [], []. by split_and!.
  - destruct (sync_meeting_submits date doc w) as (w1 & evs1 & panels & segments & Hdoc & Hs1).
    destruct (IH w1) as (w2 & evs2 & groups & Hrest & Hs2 & Hall).
    exists w2, (evs1 ++ evs2), (meeting_blocks (meeting_title doc)
      (content_md BeautifulSoup panels) (format_transcript segments) :: groups).
    split_and!.
    + by rewrite (bind_returned _ _ _ _ _ _ Hdoc), Hrest.
    + by rewrite submissions_app, Hs1, Hs2.
    + constructor; [by exists panels, segments|done].
Qed.



End OrchestratorFacts.


Example sample_run_events :
  let summary := lit "Agenda" in
  let transcript := [127897; 65039; 32]%N ++ lit "hi" in
  Spec.submissions sample_run.2
  = [ [header_block (lit "2024-01-05")];
      meeting_blocks (lit "Planning") summary transcript;
      meeting_blocks (lit "Untitled Meeting") summary transcript ]
  ∧ omap (λ ev, match ev with Print (FailedToSync title) => Some title | _ => None end)
         sample_run.2
    = [lit "Planning"; lit "Untitled Meeting"].
Proof. split; vm_compute; reflexivity. Qed.

(** C4. What the script does with an empty block list: no request is made,
    the world is left as it was, and the call returns [None], which is
    neither [True] nor [False]; on every other list the same function
    makes one request and returns a boolean. *)
Theorem send_blocks_to_craft_empty {World : Type} cfg
    (craft_endpoint : str → Headers → list Block → str → World → outcome unit * World)
    date (w : World) :
  send_blocks_to_craft cfg craft_endpoint [] date w = (Returned None, w, [])
  ∧ ∀ block blocks, ∃ success w' evs,
      send_blocks_to_craft cfg craft_endpoint (block :: blocks) date w
      = (Returned (Some success), w', evs)
      ∧ Spec.submissions evs = [block :: blocks].
Proof.
  split; [reflexivity|]. intros block blocks.
  apply send_blocks_to_craft_submits.
Qed.

(** C3, as the specification words it, fails: with no variable set the run
    does not fail, and the fetch of the documents does return the empty
    list. *)
Lemma missing_cookie_claim_fails :
  ¬ Spec.missing_cookie_claim HtmlParser.BeautifulSoup empty_environment
      (λ _, refuse) (λ _ _, refuse) (λ _ _, refuse) (λ _ _ _ _, refuse)
      (Date 2024 1 5) ().
Proof.
  intros Hclaim. destruct Hclaim as [[e He] _]; [reflexivity|].
  vm_compute in He. discriminate He.
Qed.

(** C3, amended. When the session cookie is not set in the environment the
    program does not fail: building the headers raises inside the fetch of
    the documents, which reports the error, makes no request and returns
    the empty list; the run then reports that there are no meetings and
    ends normally, with no request made and nothing submitted. *)
Theorem missing_cookie_degrades {World : Type} BeautifulSoup
    (getenv : str → option str)
    (documents_endpoint : Headers → World → outcome (list Meeting) * World)
    panels_endpoint transcript_endpoint craft_endpoint yesterday (w : World) :
  getenv (lit "GRANOLA_COOKIE") = None →
  get_granola_documents (load_config getenv) documents_endpoint w
  = (Returned [], w, [Print (ErrorFetchingDocuments AttributeError)])
  ∧ main BeautifulSoup (load_config getenv) documents_endpoint panels_endpoint
         transcript_endpoint craft_endpoint yesterday w
    = (Returned (), w,
       [ Print (Starting (isoformat yesterday));
         Print (ErrorFetchingDocuments AttributeError);
         Print (NoMeetingsFound (isoformat yesterday)) ]).
Proof.
  intros Hcookie.
  assert (Hfetch :
    get_granola_documents (load_config getenv) documents_endpoint w
    = (Returned [], w, [Print (ErrorFetchingDocuments AttributeError)])).
  { unfold get_granola_documents, try_except, bind, lift, get_headers, load_config.
    simpl. by rewrite Hcookie. }
  split; [done|]. unfold main.
  unfold bind at 1. unfold print at 1, emit at 1.
  by rewrite (bind_returned _ _ _ _ _ _ Hfetch).
Qed.

Lemma missing_cookie_degrades_witness :
  get_granola_documents (load_config empty_environment) (λ _, refuse) ()
  = (Returned [], (), [Print (ErrorFetchingDocuments AttributeError)])
  ∧ unconfigured_run ()
    = (Returned (), (),
       [ Print (Starting (isoformat (Date 2024 1 5)));
         Print (ErrorFetchingDocuments AttributeError);
         Print (NoMeetingsFound (isoformat (Date 2024 1 5))) ]).
Proof.
  apply (missing_cookie_degrades HtmlParser.BeautifulSoup empty_environment
           (λ _, refuse) (λ _ _, refuse) (λ _ _, refuse) (λ _ _ _ _, refuse)
           (Date 2024 1 5) ()).
  reflexivity.
Defined.

(** ** The conversion on the examples of the specification *)

Example convert_empty BeautifulSoup : html_to_markdown BeautifulSoup [] = [].
Proof. reflexivity. Qed.

Example convert_heading_and_paragraph :
  HtmlParser.soup_of (lit "<h3>Title</h3><p>Body</p>")
  = Some [ Tag (lit "h3") [] [NavigableString true (lit "Title")];
           Tag (lit "p") [] [NavigableString true (lit "Body")] ]
  ∧ html_to_markdown HtmlParser.BeautifulSoup (lit "<h3>Title</h3><p>Body</p>")
    = lit "### Title" ++ [nl] ++ lit "Body".
Proof. split; vm_compute; reflexivity. Qed.

Example convert_anchor :
  soup_to_markdown
    [Tag (lit "a") [(lit "href", lit "http://x.com")] [NavigableString true (lit "link")]]
  = lit "[link](http://x.com)".
Proof. vm_compute. reflexivity. Qed.

Example convert_nested_heading :
  soup_to_markdown
    [Tag (lit "li") []
       [Tag (lit "h3") [] [NavigableString true (lit "a");
                           Tag (lit "h3") [] [NavigableString true (lit "b")]]]]
  = lit "- ### ab".
Proof. vm_compute. reflexivity. Qed.

(** ** Newline runs *)


Lemma newline_runs_mono k j s :
  (j ≤ k)%nat → Spec.newline_runs_below3 k s = true →
  Spec.newline_runs_below3 j s = true.
Proof.
  revert k j. induction s as [|c s IH]; intros k j Hjk; simpl; [done|].
  destruct (c =? nl)%N; [|done].
  rewrite !andb_true_iff, !Nat.ltb_lt. intros [Hk Hs]. split; [lia|].
  apply (IH (S k)); [lia|done].
Qed.

Lemma newline_runs_prefix k s t :
  s `prefix_of` t → Spec.newline_runs_below3 k t = true →
  Spec.newline_runs_below3 k s = true.
Proof.
  intros [rest ->]. revert k. induction s as [|c s IH]; intros k; simpl; [done|].
  destruct (c =? nl)%N; [|apply IH].
  rewrite !andb_true_iff. intros [Hk Hs]. split; [done|by apply IH].
Qed.

Lemma newline_runs_suffix k s t :
  s `suffix_of` t → Spec.newline_runs_below3 k t = true →
  Spec.newline_runs_below3 0 s = true.
Proof.
  intros [before ->]. revert k.
  induction before as [|c before IH]; intros k; simpl.
  - apply newline_runs_mono. lia.
  - destruct (c =? nl)%N; [|apply IH].
    rewrite andb_true_iff. intros [_ H]. by apply IH in H.
Qed.

Lemma newline_runs_strip s :
  Spec.newline_runs_below3 0 s = true → Spec.newline_runs_below3 0 (strip s) = true.
Proof.
  intros H. unfold strip.
  apply (newline_runs_prefix _ _ (lstrip s)); [apply rstrip_prefix|].
  by apply (newline_runs_suffix 0 _ s); [apply lstrip_suffix|].
Qed.

Lemma flush_newlines_cases pending :
  ∃ m, (m ≤ 2)%nat ∧ flush_newlines pending = replicate m nl
       ∧ ((pending ≤ 2)%nat → m = pending).
Proof.
  unfold flush_newlines. destruct (decide (3 ≤ pending)%nat).
  - exists 2%nat. split_and!; [lia|done|lia].
  - exists pending. split_and!; [lia|done|done].
Qed.

Lemma newline_runs_after_break m c t :
  (m ≤ 2)%nat → (c =? nl)%N = false →
  Spec.newline_runs_below3 0 (replicate m nl ++ c :: t) = Spec.newline_runs_below3 0 t.
Proof.
  intros Hm Hc. destruct m as [|[|[|m]]]; [| | |lia]; simpl;
    change (nl =? nl)%N with true; cbv iota; simpl; by rewrite Hc.
Qed.

Lemma sub_newlines_from_below3 pending s :
  Spec.newline_runs_below3 0 (sub_newlines_from pending s) = true.
Proof.
  revert pending. induction s as [|c s IH]; intros pending; simpl.
  - destruct (flush_newlines_cases pending) as (m & Hm & -> & _).
    by destruct m as [|[|[|m]]]; [| | |lia].
  - destruct (c =? nl)%N eqn:Hc; [apply IH|].
    destruct (flush_newlines_cases pending) as (m & Hm & -> & _).
    by rewrite newline_runs_after_break.
Qed.

(** A text without a run of three newlines is left as it is. *)
Lemma sub_newlines_from_id pending s :
  (pending ≤ 2)%nat → Spec.newline_runs_below3 pending s = true →
  sub_newlines_from pending s = replicate pending nl ++ s.
Proof.
  revert pending. induction s as [|c s IH]; intros pending Hp; simpl.
  - intros _. destruct (flush_newlines_cases pending) as (m & _ & -> & Hm).
    by rewrite Hm, app_nil_r.
  - destruct (c =? nl)%N eqn:Hc.
    + rewrite andb_true_iff, Nat.ltb_lt. intros [Hlt Hs].
      rewrite IH by (done || lia). apply N.eqb_eq in Hc as ->.
      by rewrite replicate_S_end, <- app_assoc.
    + intros Hs. rewrite (IH 0%nat) by (done || lia).
      destruct (flush_newlines_cases pending) as (m & _ & -> & Hm).
      by rewrite Hm.
Qed.

Lemma html_to_markdown_below3 BeautifulSoup html :
  Spec.newline_runs_below3 0 (html_to_markdown BeautifulSoup html) = true.
Proof.
  unfold html_to_markdown. destruct (truthy html); [|done].
  apply newline_runs_strip, sub_newlines_from_below3.
Qed.

(** ** Where the characters of the output come from *)















Example plain_text_passes :
  HtmlParser.soup_of (lit "a > b") = Some [NavigableString true (lit "a > b")]
  ∧ html_to_markdown HtmlParser.BeautifulSoup (lit "a > b") = lit "a > b".
Proof. split; vm_compute; reflexivity. Qed.


(** ** The reference parser on plain text *)

Lemma lex_plain_text s :
  60%N ∉ s → 38%N ∉ s →
  HtmlParser.lex HtmlParser.InText s = Some ((λ c, HtmlParser.Data [c]) <$> s).
Proof.
  induction s as [|c s IH]; simpl; [done|].
  rewrite !not_elem_of_cons. intros [Hlt ?] [Hamp ?].
  unfold HtmlParser.lt_sign, HtmlParser.amp_sign.
  destruct (N.eqb_spec c 60); [done|]. destruct (N.eqb_spec c 38); [done|].
  by rewrite IH.
Qed.

Lemma feed_plain_text b s :
  HtmlParser.feed b ((λ c, HtmlParser.Data [c]) <$> s)
  = Some (HtmlParser.Builder (HtmlParser.current_data b ++ s)
            (HtmlParser.tagStack b) (HtmlParser.document b)).
Proof.
  revert b. induction s as [|c s IH]; intros [data stack doc]; simpl.
  - by rewrite app_nil_r.
  - rewrite IH. simpl. by rewrite <- app_assoc.
Qed.

Lemma reference_parser_keeps_plain_text : keeps_plain_text HtmlParser.BeautifulSoup.
Proof.
  intros s Hlt Hamp Hblank.
  unfold HtmlParser.BeautifulSoup, HtmlParser.soup_of.
  rewrite lex_plain_text by done. simpl. rewrite feed_plain_text. simpl.
  unfold HtmlParser.close, HtmlParser.endData. simpl.
  destruct s as [|c s]; [done|].
  change (HtmlParser.ascii_space c && forallb HtmlParser.ascii_space s) with
    (forallb (λ c, (c =? 32) || (c =? 10) || (c =? 9) || (c =? 12) || (c =? 13))%N (c :: s)).
  by rewrite Hblank.
Qed.

(** ** Applying the conversion to its own output *)

Lemma html_to_markdown_stripped BeautifulSoup x :
  ∃ t, html_to_markdown BeautifulSoup x = strip t.
Proof.
  unfold html_to_markdown. destruct (truthy x); [by eexists|by exists []].
Qed.

Lemma ascii_blank_isspace c :
  ((c =? 32) || (c =? 10) || (c =? 9) || (c =? 12) || (c =? 13))%N = true →
  isspace c = true.
Proof.
  rewrite !orb_true_iff, !N.eqb_eq. by intros [[[[->| ->]| ->]| ->]| ->].
Qed.

(** C6, as the specification words it, fails on the markup
    [<<i></i>b>hello]: the first pass yields [<b>hello], in which the
    second pass reads a tag and yields [hello]. *)
Lemma idempotent_claim_fails :
  ¬ Spec.idempotent_claim HtmlParser.BeautifulSoup (lit "<<i></i>b>hello").
Proof. intros H. vm_compute in H. discriminate H. Qed.

Example stray_bracket_passes :
  HtmlParser.soup_of (lit "<<i></i>b>hello")
  = Some [ NavigableString true (lit "<"); Tag (lit "i") [] [];
           NavigableString true (lit "b>hello") ]
  ∧ html_to_markdown HtmlParser.BeautifulSoup (lit "<<i></i>b>hello") = lit "<b>hello"
  ∧ HtmlParser.soup_of (lit "<b>hello")
    = Some [Tag (lit "b") [] [NavigableString true (lit "hello")]]
  ∧ html_to_markdown HtmlParser.BeautifulSoup (lit "<b>hello") = lit "hello".
Proof. split_and!; vm_compute; reflexivity. Qed.

(** C6, amended. With a parser that hands plain text back as one string,
    the conversion leaves its own output unchanged whenever that output
    holds no [<] and no [&]. *)
Theorem html_to_markdown_idempotent_on_plain (BeautifulSoup : str → list node) (x : str) :
  keeps_plain_text BeautifulSoup →
  60%N ∉ html_to_markdown BeautifulSoup x →
  38%N ∉ html_to_markdown BeautifulSoup x →
  html_to_markdown BeautifulSoup (html_to_markdown BeautifulSoup x)
  = html_to_markdown BeautifulSoup x.
Proof.
  intros Hparser Hlt Hamp.
  pose proof (html_to_markdown_below3 BeautifulSoup x) as Hruns.
  destruct (html_to_markdown_stripped BeautifulSoup x) as [t Hy].
  assert (Hstrip : strip (html_to_markdown BeautifulSoup x)
                   = html_to_markdown BeautifulSoup x)
    by (rewrite Hy; apply strip_idemp).
  assert (Hhead : clean_head (html_to_markdown BeautifulSoup x))
    by (rewrite Hy; apply strip_clean_head).
  destruct (html_to_markdown BeautifulSoup x) as [|c y] eqn:Hout; [done|].
  unfold html_to_markdown at 1. simpl truthy. cbv iota.
  rewrite Hparser; [|done|done|].
  - change (soup_to_markdown [NavigableString true (c :: y)])
      with (strip (sub_newlines ((c :: y) ++ []))).
    rewrite app_nil_r. unfold sub_newlines.
    rewrite sub_newlines_from_id; [exact Hstrip|lia|exact Hruns].
  - simpl in Hhead |- *.
    destruct ((c =? 32) || (c =? 10) || (c =? 9) || (c =? 12) || (c =? 13))%N eqn:Hc;
      [|done].
    apply ascii_blank_isspace in Hc. congruence.
Qed.

Lemma html_to_markdown_idempotent_witness :
  html_to_markdown HtmlParser.BeautifulSoup
    (html_to_markdown HtmlParser.BeautifulSoup (lit "<p>Agenda</p>"))
  = html_to_markdown HtmlParser.BeautifulSoup (lit "<p>Agenda</p>").
Proof.
  apply (html_to_markdown_idempotent_on_plain HtmlParser.BeautifulSoup).
  - apply reference_parser_keeps_plain_text.
  - apply (bool_decide_unpack _). vm_compute. exact I.
  - apply (bool_decide_unpack _). vm_compute. exact I.
Defined.

(** * Further properties of the script *)

(** ** Request headers *)

(** X1. [get_headers] raises exactly when the session cookie is not set.
    Otherwise the headers carry the five fixed entries and the cookie
    value under exactly one of two keys: "Authorization" when the value
    starts with "Bearer ", "Cookie" when it does not; the other key is
    absent. *)
Theorem get_headers_authentication (cfg : Config) :
  match GRANOLA_COOKIE cfg with
  | None => get_headers cfg = Raised AttributeError
  | Some cookie =>
      ∃ headers,
        get_headers cfg = Returned headers
        ∧ header_get headers (lit "Accept") = Some (Some (lit "application/json"))
        ∧ header_get headers (lit "Content-Type") = Some (Some (lit "application/json"))
        ∧ header_get headers (lit "X-Granola-Device-Id") = Some (X_DEVICE_ID cfg)
        ∧ header_get headers (lit "X-Granola-Workspace-Id") = Some (X_WORKSPACE_ID cfg)
        ∧ header_get headers (lit "X-Client-Version") = Some (Some (X_VERSION cfg))
        ∧ (if startswith cookie (lit "Bearer ")
           then header_get headers (lit "Authorization") = Some (Some cookie)
                ∧ header_get headers (lit "Cookie") = None
           else header_get headers (lit "Cookie") = Some (Some cookie)
                ∧ header_get headers (lit "Authorization") = None)
  end.
Proof.
  unfold get_headers. destruct (GRANOLA_COOKIE cfg) as [cookie|]; [|done].
  destruct (startswith cookie (lit "Bearer ")); eexists; (split; [reflexivity|]);
    split_and!; reflexivity.
Qed.

(** X2. With the settings read from the environment, the client version
    sent is never empty: it is the value of X_CLIENT_VERSION when that is
    set to a non-empty string, and "6.462.1" when it is unset or empty. *)
Theorem client_version_header (getenv : str → option str) (headers : Headers) :
  get_headers (load_config getenv) = Returned headers →
  ∃ version,
    header_get headers (lit "X-Client-Version") = Some (Some version)
    ∧ version ≠ []
    ∧ version = match getenv (lit "X_CLIENT_VERSION") with
                | Some (c :: s) => c :: s
                | Some [] | None => lit "6.462.1"
                end.
Proof.
  unfold get_headers. cbn [GRANOLA_COOKIE load_config].
  destruct (getenv (lit "GRANOLA_COOKIE")) as [cookie|]; [|done].
  assert (Hversion : ∀ tail,
    header_get
      ([ (lit "Accept", Some (lit "application/json"));
         (lit "Content-Type", Some (lit "application/json"));
         (lit "X-Granola-Device-Id", getenv (lit "X_GRANOLA_DEVICE_ID"));
         (lit "X-Granola-Workspace-Id", getenv (lit "X_GRANOLA_WORKSPACE_ID"));
         (lit "X-Client-Version",
          Some (getenv_or (getenv (lit "X_CLIENT_VERSION")) (lit "6.462.1"))) ] ++ tail)
      (lit "X-Client-Version")
    = Some (Some (getenv_or (getenv (lit "X_CLIENT_VERSION")) (lit "6.462.1"))))
    by (intros tail; reflexivity).
  intros Hh. exists (getenv_or (getenv (lit "X_CLIENT_VERSION")) (lit "6.462.1")).
  split_and!.
  - destruct (startswith cookie (lit "Bearer ")); injection Hh as <-; apply Hversion.
  - by destruct (getenv (lit "X_CLIENT_VERSION")) as [[|c s]|].
  - by destruct (getenv (lit "X_CLIENT_VERSION")) as [[|c s]|].
Qed.

Lemma client_version_header_default :
  ∃ version,
    header_get cookie_headers (lit "X-Client-Version") = Some (Some version)
    ∧ version ≠ []
    ∧ version = lit "6.462.1".
Proof.
  exact (client_version_header cookie_environment cookie_headers eq_refl).
Defined.

(** ** The collaborators *)

Section CollaboratorFacts.

Context {World : Type}.
Variable BeautifulSoup : str → list node.
Variable cfg : Config.
Variable documents_endpoint : Headers → World → outcome (list Meeting) * World.
Variable panels_endpoint : Headers → str → World → outcome (list Panel) * World.
Variable transcript_endpoint :
  Headers → str → World → outcome (option (list Segment)) * World.
Variable craft_endpoint :
  str → Headers → list Block → str → World → outcome unit * World.

Local Abbreviation fetch_documents := (get_granola_documents cfg documents_endpoint).
Local Abbreviation fetch_panels := (get_document_panels cfg panels_endpoint).
Local Abbreviation fetch_transcript := (get_document_transcript cfg transcript_endpoint).
Local Abbreviation send := (send_blocks_to_craft cfg craft_endpoint).
Local Abbreviation sync :=
  (sync_meeting BeautifulSoup cfg panels_endpoint transcript_endpoint craft_endpoint).
Local Abbreviation run :=
  (main BeautifulSoup cfg documents_endpoint panels_endpoint transcript_endpoint
        craft_endpoint).

(** X3. None of the three fetches ever raises.  When the headers cannot be
    built no request is made; otherwise exactly one is made.  The result is
    the endpoint's answer when it answers, and the empty list, after one
    printed error line, in every other case. *)
Theorem fetch_degrades (doc_id : str) (w : World) :
  match get_headers cfg with
  | Raised e =>
      fetch_documents w = (Returned [], w, [Print (ErrorFetchingDocuments e)])
      ∧ fetch_panels doc_id w = (Returned [], w, [Print (ErrorFetchingPanels doc_id e)])
      ∧ fetch_transcript doc_id w
        = (Returned (Some []), w, [Print (ErrorFetchingTranscript doc_id e)])
  | Returned headers =>
      (let '(o, w') := documents_endpoint headers w in
       fetch_documents w
       = (Returned (answer_or [] o), w',
          Http (GetDocuments headers)
          :: match o with
             | Returned _ => []
             | Raised e => [Print (ErrorFetchingDocuments e)]
             end))
      ∧ (let '(o, w') := panels_endpoint headers doc_id w in
         fetch_panels doc_id w
         = (Returned (answer_or [] o), w',
            Http (GetPanels headers doc_id)
            :: match o with
               | Returned _ => []
               | Raised e => [Print (ErrorFetchingPanels doc_id e)]
               end))
      ∧ (let '(o, w') := transcript_endpoint headers doc_id w in
         fetch_transcript doc_id w
         = (Returned (answer_or (Some []) o), w',
            Http (GetTranscript headers doc_id)
            :: match o with
               | Returned _ => []
               | Raised e => [Print (ErrorFetchingTranscript doc_id e)]
               end))
  end.
Proof.
  unfold get_granola_documents, get_document_panels, get_document_transcript,
    try_except, bind, lift, call, bind, emit, print, emit, ret.
  destruct (get_headers cfg) as [headers|e]; [|done].
  split_and!.
  - by destruct (documents_endpoint headers w) as [[docs|e] w'].
  - by destruct (panels_endpoint headers doc_id w) as [[panels|e] w'].
  - by destruct (transcript_endpoint headers doc_id w) as [[segments|e] w'].
Qed.

(** X4. A submission of at least one block never raises and makes exactly
    one request: to the blocks URL of the configured space, with the
    bearer token, the blocks and the date (an unset space or token is sent
    as the text "None").  It returns [True] when the destination answers
    and [False] when the call raises, after printing the error and, when
    the exception carries a response, its text. *)
Theorem send_blocks_to_craft_result block blocks date (w : World) :
  let '(o, w') :=
    craft_endpoint (craft_url cfg) (craft_headers cfg) (block :: blocks) date w in
  send (block :: blocks) date w
  = (Returned (Some (answered o)), w',
     Http (PostBlocks (craft_url cfg) (craft_headers cfg) (block :: blocks) date)
     :: match o with
        | Returned _ => []
        | Raised e => craft_error_lines e
        end).
Proof.
  unfold send_blocks_to_craft, try_except, bind, call, bind, emit, print, emit, ret.
  cbn [truthy negb].
  replace (CRAFT_API_BASE cfg ++ lit "/blocks") with (craft_url cfg)
    by (unfold craft_url, CRAFT_API_BASE; by rewrite <- !app_assoc).
  change [(lit "Authorization", Some (lit "Bearer " ++ fmt (CRAFT_TOKEN cfg)));
          (lit "Content-Type", Some (lit "application/json"))]
    with (craft_headers cfg).
  by destruct (craft_endpoint _ _ _ _ w) as [[[]|[|[text|]]] w'].
Qed.

End CollaboratorFacts.

(** ** Runs of the orchestrator *)

Lemma verdicts_app evs evs' : verdicts (evs ++ evs') = verdicts evs ++ verdicts evs'.
Proof. apply omap_app. Qed.

Lemma submission_targets_app evs evs' :
  submission_targets (evs ++ evs')
  = submission_targets evs ++ submission_targets evs'.
Proof. apply omap_app. Qed.

Lemma length_submission_targets evs :
  length (submission_targets evs) = length (Spec.submissions evs).
Proof.
  induction evs as [|[[]|] evs IH]; simpl; by rewrite ?IH.
Qed.

Lemma craft_url_blocks cfg : CRAFT_API_BASE cfg ++ lit "/blocks" = craft_url cfg.
Proof. unfold craft_url, CRAFT_API_BASE. by rewrite <- !app_assoc. Qed.

Lemma requests_app evs evs' : requests (evs ++ evs') = requests evs ++ requests evs'.
Proof. apply omap_app. Qed.

Section RunFacts.

Context {World : Type}.
Variable BeautifulSoup : str → list node.
Variable cfg : Config.
Variable documents_endpoint : Headers → World → outcome (list Meeting) * World.
Variable panels_endpoint : Headers → str → World → outcome (list Panel) * World.
Variable transcript_endpoint :
  Headers → str → World → outcome (option (list Segment)) * World.
Variable craft_endpoint :
  str → Headers → list Block → str → World → outcome unit * World.

Local Abbreviation fetch_documents := (get_granola_documents cfg documents_endpoint).
Local Abbreviation fetch_panels := (get_document_panels cfg panels_endpoint).
Local Abbreviation fetch_transcript := (get_document_transcript cfg transcript_endpoint).
Local Abbreviation send := (send_blocks_to_craft cfg craft_endpoint).
Local Abbreviation sync :=
  (sync_meeting BeautifulSoup cfg panels_endpoint transcript_endpoint craft_endpoint).
Local Abbreviation run :=
  (main BeautifulSoup cfg documents_endpoint panels_endpoint transcript_endpoint
        craft_endpoint).

(** What a run shows of each collaborator call. *)
Lemma fetch_documents_run (w : World) :
  ∃ docs w' evs,
    fetch_documents w = (Returned docs, w', evs)
    ∧ docs = run_documents cfg documents_endpoint w
    ∧ Spec.submissions evs = [] ∧ verdicts evs = []
    ∧ submission_targets evs = []
    ∧ (∀ headers, get_headers cfg = Returned headers →
                  kind_of <$> requests evs = [Documents]).
Proof.
  unfold run_documents.
  unfold get_granola_documents, try_except, bind, lift, call, bind, emit, print, emit, ret.
  destruct (get_headers cfg) as [headers|e]; simpl.
  - destruct (documents_endpoint headers w) as [[docs|e] w']; simpl;
      eexists _, _, _; split_and!; done.
  - eexists _, _, _; split_and!; done.
Qed.

Lemma fetch_panels_run doc_id (w : World) :
  ∃ panels w' evs,
    fetch_panels doc_id w = (Returned panels, w', evs)
    ∧ Spec.submissions evs = [] ∧ verdicts evs = []
    ∧ submission_targets evs = []
    ∧ ((∀ headers id w, answered (panels_endpoint headers id w).1 = false) →
       panels = [])
    ∧ (∀ headers, get_headers cfg = Returned headers →
                  kind_of <$> requests evs = [Panels doc_id]).
Proof.
  unfold get_document_panels, try_except, bind, lift, call, bind, emit, print, emit, ret.
  destruct (get_headers cfg) as [headers|e]; simpl.
  - pose proof (λ H : ∀ headers id w, answered (panels_endpoint headers id w).1 = false,
                  H headers doc_id w) as Hraise.
    destruct (panels_endpoint headers doc_id w) as [[panels|e] w']; simpl in *;
      eexists _, _, _; split_and!; try done.
    intros H. by apply Hraise in H.
  - eexists _, _, _; split_and!; done.
Qed.

Lemma fetch_transcript_run doc_id (w : World) :
  ∃ segments w' evs,
    fetch_transcript doc_id w = (Returned segments, w', evs)
    ∧ Spec.submissions evs = [] ∧ verdicts evs = []
    ∧ submission_targets evs = []
    ∧ ((∀ headers id w, answered (transcript_endpoint headers id w).1 = false) →
       segments = Some [])
    ∧ (∀ headers, get_headers cfg = Returned headers →
                  kind_of <$> requests evs = [Transcript doc_id]).
Proof.
  unfold get_document_transcript, try_except, bind, lift, call, bind, emit, print, emit, ret.
  destruct (get_headers cfg) as [headers|e]; simpl.
  - pose proof (λ H : ∀ headers id w, answered (transcript_endpoint headers id w).1 = false,
                  H headers doc_id w) as Hraise.
    destruct (transcript_endpoint headers doc_id w) as [[segments|e] w']; simpl in *;
      eexists _, _, _; split_and!; try done.
    intros H. by apply Hraise in H.
  - eexists _, _, _; split_and!; done.
Qed.

Lemma send_run block blocks date (w : World) :
  ∃ success w' evs,
    send (block :: blocks) date w = (Returned (Some success), w', evs)
    ∧ Spec.submissions evs = [block :: blocks] ∧ verdicts evs = []
    ∧ submission_targets evs = [(craft_url cfg, craft_headers cfg, date)]
    ∧ kind_of <$> requests evs = [Submit (length (block :: blocks))]
    ∧ (∀ flag, (∀ url headers bs d w, answered (craft_endpoint url headers bs d w).1 = flag) →
               success = flag).
Proof.
  unfold send_blocks_to_craft, try_except, bind, call, bind, emit, print, emit, ret.
  cbn [truthy negb]. rewrite craft_url_blocks.
  change [(lit "Authorization", Some (lit "Bearer " ++ fmt (CRAFT_TOKEN cfg)));
          (lit "Content-Type", Some (lit "application/json"))]
    with (craft_headers cfg).
  match goal with |- context [craft_endpoint ?u ?h ?b ?d w] =>
    pose proof (λ flag (H : ∀ url headers bs d w,
                          answered (craft_endpoint url headers bs d w).1 = flag),
                  H u h b d w) as Hflag;
    destruct (craft_endpoint u h b d w) as [[[]|[|[text|]]] w'] end;
    simpl in *; eexists _, _, _; split_and!; try done;
    intros flag H; by rewrite <- (Hflag flag H).
Qed.

(** One turn of the loop, seen through every reading at once. *)
Lemma sync_meeting_run date doc (w : World) :
  ∃ panels segments success w' evs,
    sync date doc w = (Returned (), w', evs)
    ∧ Spec.submissions evs
      = [meeting_blocks (meeting_title doc) (content_md BeautifulSoup panels)
           (format_transcript segments)]
    ∧ verdicts evs = [(meeting_title doc, success)]
    ∧ submission_targets evs = [(craft_url cfg, craft_headers cfg, date)]
    ∧ ((∀ headers id w, answered (panels_endpoint headers id w).1 = false) →
       panels = [])
    ∧ ((∀ headers id w, answered (transcript_endpoint headers id w).1 = false) →
       segments = Some [])
    ∧ (∀ flag, (∀ url headers bs d w, answered (craft_endpoint url headers bs d w).1 = flag) →
               success = flag)
    ∧ (∀ headers, get_headers cfg = Returned headers →
         kind_of <$> requests evs
         = [Panels (doc_id doc); Transcript (doc_id doc); Submit 4]).
Proof.
  unfold sync_meeting.
  destruct (fetch_panels_run (doc_id doc) w)
    as (panels & w1 & evs1 & Hp & Hs1 & Hv1 & Hg1 & Hraise1 & Hk1).
  destruct (fetch_transcript_run (doc_id doc) w1)
    as (segments & w2 & evs2 & Ht & Hs2 & Hv2 & Hg2 & Hraise2 & Hk2).
  destruct (send_run
              (mkBlock (lit "text") (Some (lit "h2")) (meeting_title doc) None)
              (tail (meeting_blocks (meeting_title doc)
                       (content_md BeautifulSoup panels) (format_transcript segments)))
              date w2) as (success & w3 & evs3 & Hsend & Hs3 & Hv3 & Hg3 & Hk3 & Hflag).
  exists panels, segments, success, w3,
    ([Print (Syncing (meeting_title doc))] ++ evs1 ++ evs2 ++ evs3 ++
     [Print (if success then SuccessfullySynced (meeting_title doc)
             else FailedToSync (meeting_title doc))]).
  split_and!; try done.
  - unfold bind at 1. unfold print at 1, emit at 1.
    rewrite (bind_returned _ _ _ _ _ _ Hp), (bind_returned _ _ _ _ _ _ Ht).
    change (meeting_blocks _ _ _) with
      (mkBlock (lit "text") (Some (lit "h2")) (meeting_title doc) None
       :: tail (meeting_blocks (meeting_title doc)
                  (content_md BeautifulSoup panels) (format_transcript segments))).
    rewrite (bind_returned _ _ _ _ _ _ Hsend).
    by destruct success.
  - rewrite !submissions_app, Hs1, Hs2, Hs3. by destruct success.
  - rewrite !verdicts_app, Hv1, Hv2, Hv3. by destruct success.
  - rewrite !submission_targets_app, Hg1, Hg2, Hg3. by destruct success.
  - intros headers Hh. rewrite !requests_app, !fmap_app, (Hk1 _ Hh), (Hk2 _ Hh), Hk3.
    by destruct success.
Qed.

(** The loop collects, meeting by meeting, whatever a reading [collect]
    finds in one turn. *)
Lemma for_each_sync_collect {B} (collect : list event → list B)
    (expected : Meeting → list B) date :
  collect [] = [] →
  (∀ evs evs', collect (evs ++ evs') = collect evs ++ collect evs') →
  (∀ doc w, ∃ w' evs, sync date doc w = (Returned (), w', evs)
                      ∧ collect evs = expected doc) →
  ∀ docs w, ∃ w' evs,
    for_each docs (sync date) w = (Returned (), w', evs)
    ∧ collect evs = concat (expected <$> docs).
Proof.
  intros Hnil Happ Hturn docs.
  induction docs as [|doc docs IH]; intros w; simpl.
  - by exists w, [].
  - destruct (Hturn doc w) as (w1 & evs1 & Hdoc & Hc1).
    destruct (IH w1) as (w2 & evs2 & Hrest & Hc2).
    exists w2, (evs1 ++ evs2). split.
    + by rewrite (bind_returned _ _ _ _ _ _ Hdoc), Hrest.
    + by rewrite Happ, Hc1, Hc2.
Qed.

(** The shape of a run: the fetch of the documents, then either the line
    that nothing was found, or the header and the loop. *)
Lemma main_run yesterday (w : World) :
  ∃ w1 evs1,
    fetch_documents w = (Returned (run_documents cfg documents_endpoint w), w1, evs1)
    ∧ Spec.submissions evs1 = [] ∧ verdicts evs1 = []
    ∧ submission_targets evs1 = []
    ∧ (∀ headers, get_headers cfg = Returned headers →
                  kind_of <$> requests evs1 = [Documents])
    ∧ match filter_meetings_by_date (run_documents cfg documents_endpoint w) yesterday with
      | [] =>
          run yesterday w
          = (Returned (), w1,
             [Print (Starting (isoformat yesterday))] ++ evs1
             ++ [Print (NoMeetingsFound (isoformat yesterday))])
      | target =>
          ∃ w2 evs2 w3 evs3,
            Spec.submissions evs2 = [[header_block (isoformat yesterday)]]
            ∧ verdicts evs2 = []
            ∧ submission_targets evs2
              = [(craft_url cfg, craft_headers cfg, isoformat yesterday)]
            ∧ kind_of <$> requests evs2 = [Submit 1]
            ∧ for_each target (sync (isoformat yesterday)) w2 = (Returned (), w3, evs3)
            ∧ run yesterday w
              = (Returned (), w3,
                 [Print (Starting (isoformat yesterday))] ++ evs1
                 ++ [Print (FoundMeetings (len target))] ++ evs2 ++ evs3)
      end.
Proof.
  destruct (fetch_documents_run w)
    as (docs & w1 & evs1 & Hdocs & -> & Hs1 & Hv1 & Hg1 & Hk1).
  exists w1, evs1. split_and!; try done.
  destruct (filter_meetings_by_date _ yesterday) as [|doc target] eqn:Htarget.
  - unfold main. unfold bind at 1. unfold print at 1, emit at 1.
    rewrite (bind_returned _ _ _ _ _ _ Hdocs). by rewrite Htarget.
  - destruct (send_run (header_block (isoformat yesterday)) [] (isoformat yesterday) w1)
      as (success & w2 & evs2 & Hsend & Hs2 & Hv2 & Hg2 & Hk2 & _).
    destruct (for_each_sync_submits BeautifulSoup cfg panels_endpoint transcript_endpoint
                craft_endpoint (isoformat yesterday) (doc :: target) w2)
      as (w3 & evs3 & groups & Hloop & _).
    exists w2, evs2, w3, evs3. split_and!; try done.
    unfold main. unfold bind at 1. unfold print at 1, emit at 1.
    rewrite (bind_returned _ _ _ _ _ _ Hdocs), Htarget.
    change (negb (truthy (doc :: target))) with false. cbv iota.
    unfold bind at 1. unfold print at 1, emit at 1.
    by rewrite (bind_returned _ _ _ _ _ _ Hsend), Hloop.
Qed.

Lemma concat_singletons {A B} (f : A → B) (l : list A) :
  concat ((λ x, [f x]) <$> l) = f <$> l.
Proof. induction l as [|x l IH]; simpl; [done|]. f_equal. exact IH. Qed.


(** X5. When no fetched meeting is dated yesterday (among them: when the
    fetch of the documents failed), the run does nothing beyond that fetch:
    it prints that no meetings were found and ends, with no header and no
    other request. *)
Theorem main_without_meetings yesterday (w : World) :
  filter_meetings_by_date (run_documents cfg documents_endpoint w) yesterday = [] →
  run yesterday w
  = (Returned (), (fetch_documents w).1.2,
     [Print (Starting (isoformat yesterday))] ++ (fetch_documents w).2
     ++ [Print (NoMeetingsFound (isoformat yesterday))])
  ∧ Spec.submissions (run yesterday w).2 = [].
Proof.
  intros Hnone.
  destruct (main_run yesterday w) as (w1 & evs1 & Hdocs & Hs1 & _ & _ & _ & Hrun).
  rewrite Hnone in Hrun. rewrite Hrun, Hdocs. split; [done|].
  cbn [snd]. by rewrite !submissions_app, Hs1.
Qed.



(** X8. When the fetch of the panels and the fetch of the transcript fail
    for every meeting, every selected meeting is still submitted, with the
    two placeholders: "No summary available." and
    "No transcript available.". *)
Theorem failed_fetches_give_placeholders yesterday (w : World) :
  (∀ headers id w, answered (panels_endpoint headers id w).1 = false) →
  (∀ headers id w, answered (transcript_endpoint headers id w).1 = false) →
  Spec.submissions (run yesterday w).2
  = match filter_meetings_by_date (run_documents cfg documents_endpoint w) yesterday with
    | [] => []
    | target =>
        [header_block (isoformat yesterday)]
        :: ((λ doc, meeting_blocks (meeting_title doc)
                      (lit "No summary available.") (lit "No transcript available."))
            <$> target)
    end.
Proof.
  intros Hpanels Htranscript.
  destruct (main_run yesterday w) as (w1 & evs1 & Hdocs & Hs1 & _ & _ & _ & Hrun).
  destruct (filter_meetings_by_date _ yesterday) as [|doc target].
  - rewrite Hrun. cbn [snd]. by rewrite !submissions_app, Hs1.
  - destruct Hrun as (w2 & evs2 & w3 & evs3 & Hs2 & _ & _ & _ & Hloop & ->).
    destruct (for_each_sync_collect Spec.submissions
                (λ d, [meeting_blocks (meeting_title d)
                         (lit "No summary available.") (lit "No transcript available.")])
                (isoformat yesterday)) with (docs := doc :: target) (w := w2)
      as (w3' & evs3' & Hloop' & Hs3).
    + done.
    + apply submissions_app.
    + intros d w0.
      destruct (sync_meeting_run (isoformat yesterday) d w0)
        as (panels & segments & ? & w' & evs & Hd & Hs & _ & _ & Hp & Ht & _).
      exists w', evs. split; [done|].
      by rewrite Hs, (Hp Hpanels), (Ht Htranscript).
    + rewrite Hloop in Hloop'. injection Hloop' as <- <-.
      cbn [snd]. rewrite !submissions_app, Hs1, Hs2, Hs3.
      by rewrite concat_singletons.
Qed.


(** X18. Everything a run submits goes to one place: every submission,
    the header's and each meeting's, is sent to the blocks URL of the
    configured space, with the same bearer-token headers, for the date of
    yesterday. *)
Theorem main_submission_targets yesterday (w : World) :
  Forall (λ target, target = (craft_url cfg, craft_headers cfg, isoformat yesterday))
         (submission_targets (run yesterday w).2)
  ∧ length (submission_targets (run yesterday w).2)
    = length (Spec.submissions (run yesterday w).2).
Proof.
  destruct (main_run yesterday w) as (w1 & evs1 & Hdocs & Hs1 & _ & Hg1 & _ & Hrun).
  destruct (filter_meetings_by_date _ yesterday) as [|doc target].
  - rewrite Hrun. split; [|apply length_submission_targets]. cbn [snd].
    by rewrite !submission_targets_app, Hg1.
  - destruct Hrun as (w2 & evs2 & w3 & evs3 & Hs2 & _ & Hg2 & _ & Hloop & ->).
    destruct (for_each_sync_collect submission_targets
                (λ _, [(craft_url cfg, craft_headers cfg, isoformat yesterday)])
                (isoformat yesterday)) with (docs := doc :: target) (w := w2)
      as (w3' & evs3' & Hloop' & Hg3).
    { done. }
    { apply submission_targets_app. }
    { intros d w0.
      destruct (sync_meeting_run (isoformat yesterday) d w0)
        as (? & ? & ? & w' & evs & Hd & _ & _ & Hg & _).
      by exists w', evs. }
    rewrite Hloop in Hloop'. injection Hloop' as <- <-.
    split; [|apply length_submission_targets]. cbn [snd].
    rewrite !submission_targets_app, Hg1, Hg2, Hg3, concat_singletons.
    apply Forall_cons. split; [done|]. apply Forall_fmap, Forall_true. done.
Qed.

End RunFacts.

Lemma main_without_meetings_idle :
  idle_run
  = (Returned (), (get_granola_documents session_config serve_documents 0%nat).1.2,
     [Print (Starting (isoformat (Date 2024 1 7)))]
     ++ (get_granola_documents session_config serve_documents 0%nat).2
     ++ [Print (NoMeetingsFound (isoformat (Date 2024 1 7)))])
  ∧ Spec.submissions idle_run.2 = [].
Proof.
  exact (main_without_meetings HtmlParser.BeautifulSoup session_config serve_documents
           serve_panels serve_transcript craft_accept_first (Date 2024 1 7) 0%nat
           eq_refl).
Defined.


Lemma placeholders_of_degraded_run :
  Spec.submissions degraded_run.2
  = match filter_meetings_by_date
            (run_documents session_config documents_served ()) (Date 2024 1 5) with
    | [] => []
    | target =>
        [header_block (isoformat (Date 2024 1 5))]
        :: ((λ doc, meeting_blocks (meeting_title doc)
                      (lit "No summary available.") (lit "No transcript available."))
            <$> target)
    end.
Proof.
  exact (failed_fetches_give_placeholders HtmlParser.BeautifulSoup session_config
           documents_served (λ _ _, refuse) (λ _ _, refuse) (λ _ _ _ _, serve ())
           (Date 2024 1 5) () (λ _ _ _, eq_refl) (λ _ _ _, eq_refl)).
Defined.


Example sample_run_requests :
  kind_of <$> requests sample_run.2
  = [ Documents; Submit 1;
      Panels (lit "m1"); Transcript (lit "m1"); Submit 4;
      Panels (lit "m3"); Transcript (lit "m3"); Submit 4 ].
Proof. vm_compute. reflexivity. Qed.

(** ** Trimmed text *)

Lemma rstrip_clean_last s : clean_last (rstrip s).
Proof.
  unfold clean_last. induction s as [|c s IH]; simpl; [done|].
  destruct (rstrip s) as [|d r] eqn:Hr.
  - destruct (isspace c) eqn:Hc; simpl; done.
  - exact IH.
Qed.

Lemma strip_clean_last s : clean_last (strip s).
Proof. apply rstrip_clean_last. Qed.

(** X10. The converted summary and the formatted transcript are trimmed:
    neither starts nor ends with a white-space character, whatever the
    input. *)
Theorem produced_text_is_trimmed (BeautifulSoup : str → list node) (html : str)
    (segments : option (list Segment)) :
  clean_head (html_to_markdown BeautifulSoup html)
  ∧ clean_last (html_to_markdown BeautifulSoup html)
  ∧ clean_head (format_transcript segments)
  ∧ clean_last (format_transcript segments).
Proof.
  split_and!.
  - unfold html_to_markdown. destruct (truthy html); [apply strip_clean_head|done].
  - unfold html_to_markdown. destruct (truthy html); [apply strip_clean_last|done].
  - destruct segments as [[|seg segs]|]; [done| |done]. apply strip_clean_head.
  - destruct segments as [[|seg segs]|]; [done| |done]. apply strip_clean_last.
Qed.

(** ** The newline collapse *)

Lemma nonspace_app s t : nonspace (s ++ t) = nonspace s ++ nonspace t.
Proof. apply List.filter_app. Qed.

Lemma nonspace_newlines n : nonspace (replicate n nl) = [].
Proof. induction n as [|n IH]; [done|exact IH]. Qed.

Lemma nonspace_sub_newlines_from pending s :
  nonspace (sub_newlines_from pending s) = nonspace s.
Proof.
  revert pending. induction s as [|c s IH]; intros pending; simpl.
  - apply nonspace_newlines.
  - destruct (N.eqb_spec c nl) as [->|Hc]; [by rewrite IH|].
    unfold flush_newlines. rewrite nonspace_app, nonspace_newlines.
    cbn [app nonspace List.filter]. by rewrite IH.
Qed.

Lemma length_sub_newlines_from pending s :
  (length (sub_newlines_from pending s) ≤ pending + length s)%nat.
Proof.
  revert pending. induction s as [|c s IH]; intros pending; simpl.
  - unfold flush_newlines. rewrite length_replicate. case_decide; lia.
  - destruct (c =? nl)%N.
    + specialize (IH (S pending)). lia.
    + rewrite length_app. unfold flush_newlines. rewrite length_replicate. simpl.
      specialize (IH 0%nat). case_decide; lia.
Qed.

(** X11. The newline collapse never lengthens a text, leaves a text
    without a run of three newlines as it is, is idempotent, and changes
    nothing but white space: the other characters stay, in their order. *)
Theorem sub_newlines_properties (s : str) :
  (length (sub_newlines s) ≤ length s)%nat
  ∧ sub_newlines (sub_newlines s) = sub_newlines s
  ∧ nonspace (sub_newlines s) = nonspace s
  ∧ (Spec.newline_runs_below3 0 s = true → sub_newlines s = s).
Proof.
  unfold sub_newlines. split_and!.
  - apply (length_sub_newlines_from 0).
  - apply (sub_newlines_from_id 0); [lia|apply sub_newlines_from_below3].
  - apply nonspace_sub_newlines_from.
  - intros H. by apply (sub_newlines_from_id 0); [lia|].
Qed.

(** ** The text of the document is kept *)











(** ** A link without a target *)

Lemma sub_newlines_from_break pending s c t :
  (c =? nl)%N = false →
  sub_newlines_from pending (s ++ c :: t)
  = sub_newlines_from pending s ++ c :: sub_newlines_from 0 t.
Proof.
  intros Hc. revert pending. induction s as [|d s IH]; intros pending; simpl.
  - by rewrite Hc.
  - destruct (d =? nl)%N; [apply IH|]. by rewrite IH, <- app_assoc.
Qed.

Lemma rstrip_keep s c t :
  isspace c = false → rstrip (s ++ c :: t) = s ++ c :: rstrip t.
Proof.
  intros Hc. induction s as [|d s IH]; simpl.
  - destruct (rstrip t); [by rewrite Hc|done].
  - rewrite IH. by destruct s.
Qed.

(** X13. A missing [href] is printed as the text "None": a document that
    is one anchor without an [href] attribute around one string [s]
    converts to [s], newline runs collapsed, between an opening bracket
    and "](None)".  (An anchor inside a heading, a list item or a
    paragraph is flattened by the earlier replacement and gets no link
    mark at all.) *)
Theorem anchor_without_href (attrs : list (str * str)) (s : str) :
  attr_get attrs (lit "href") = None →
  soup_to_markdown [Tag (lit "a") attrs [NavigableString true s]]
  = lit "[" ++ sub_newlines s ++ lit "](None)".
Proof.
  intros Hhref.
  change (soup_to_markdown [Tag (lit "a") attrs [NavigableString true s]])
    with (strip (sub_newlines (render_a attrs (s ++ []) ++ []))).
  unfold render_a. rewrite Hhref, !app_nil_r. unfold sub_newlines.
  change (lit "[" ++ s ++ lit "](" ++ fmt None ++ lit ")")
    with ([] ++ 91%N :: s ++ 93%N :: lit "(None)").
  rewrite (sub_newlines_from_break 0 [] 91%N) by done.
  rewrite (sub_newlines_from_break 0 s 93%N) by done.
  change (sub_newlines_from 0 []) with (@nil N).
  change (sub_newlines_from 0 (lit "(None)")) with (lit "(None)").
  unfold strip. rewrite lstrip_id by done.
  change ([] ++ 91%N :: sub_newlines_from 0 s ++ 93%N :: lit "(None)")
    with ((91%N :: sub_newlines_from 0 s) ++ 93%N :: lit "(None)").
  by rewrite rstrip_keep.
Qed.

Lemma anchor_without_href_plain :
  soup_to_markdown [Tag (lit "a") [(lit "class", lit "x")] [NavigableString true (lit "link")]]
  = lit "[" ++ sub_newlines (lit "link") ++ lit "](None)".
Proof. exact (anchor_without_href [(lit "class", lit "x")] (lit "link") eq_refl). Defined.

(** ** Transcripts *)

Lemma blank_pieces segs :
  Forall blank_segment segs → concat (Spec.segment_piece <$> segs) = [].
Proof.
  induction 1 as [|seg segs Hseg _ IH]; simpl; [done|].
  unfold Spec.segment_piece at 1. unfold blank_segment in Hseg.
  by rewrite Hseg, decide_True.
Qed.

Lemma pieces_glyph_head segs : glyph_head (concat (Spec.segment_piece <$> segs)).
Proof.
  induction segs as [|seg segs IH]; simpl; [done|].
  unfold Spec.segment_piece at 1. destruct (decide _); [exact IH|].
  destruct (decide (seg_source seg = _)); simpl; auto.
Qed.

Lemma rstrip_glyph_head s : glyph_head s → glyph_head (rstrip s).
Proof.
  destruct s as [|c s]; simpl; [done|]. intros Hc.
  destruct (rstrip s); simpl; [by destruct (isspace c)|done].
Qed.

(** X14. A transcript that has segments, all of them blank (text missing,
    empty or white space only), formats to the empty string.  The
    placeholder "No transcript available." is for the empty or absent
    sequence only: no sequence with a segment formats to it. *)
Theorem blank_transcript_is_empty (seg : Segment) (segs : list Segment) :
  (Forall blank_segment (seg :: segs) → format_transcript (Some (seg :: segs)) = [])
  ∧ format_transcript (Some (seg :: segs)) ≠ lit "No transcript available."
  ∧ format_transcript (Some []) = lit "No transcript available."
  ∧ format_transcript None = lit "No transcript available.".
Proof.
  split_and!; [| |done|done].
  - intros Hblank. unfold format_transcript.
    by rewrite fold_format_segment, (blank_pieces _ Hblank).
  - unfold format_transcript, strip. rewrite fold_format_segment, app_nil_l.
    rewrite lstrip_id by apply pieces_clean_head.
    pose proof (rstrip_glyph_head _ (pieces_glyph_head (seg :: segs))) as Hhead.
    intros Heq. rewrite Heq in Hhead. by destruct Hhead.
Qed.

Lemma blank_transcript_sample :
  format_transcript
    (Some [mkSegment None (Some (lit "microphone")); mkSegment (Some (lit "  ")) None])
  = [].
Proof.
  apply (blank_transcript_is_empty (mkSegment None (Some (lit "microphone")))
           [mkSegment (Some (lit "  ")) None]).
  repeat constructor.
Defined.

Lemma clean_last_snoc s :
  s ≠ [] → clean_last s → ∃ u c, s = u ++ [c] ∧ isspace c = false.
Proof.
  intros Hs Hlast. destruct s as [|c s _] using rev_ind; [done|].
  unfold clean_last in Hlast. rewrite last_snoc in Hlast. by exists s, c.
Qed.

(** X15. No spoken text is dropped: every segment whose trimmed text is
    not empty appears in the formatted transcript, its glyph prefix
    directly followed by its trimmed text. *)
Theorem format_transcript_keeps_segments (segs : list Segment) (seg : Segment) :
  seg ∈ segs → ¬ blank_segment seg →
  ∃ before after,
    format_transcript (Some segs)
    = before ++ segment_prefix seg ++ strip (default [] (seg_text seg)) ++ after.
Proof.
  intros Hin Htext. unfold blank_segment in Htext.
  destruct (list_elem_of_split _ _ Hin) as (l1 & l2 & ->).
  destruct (clean_last_snoc _ Htext (strip_clean_last _)) as (u & c & Hu & Hc).
  exists (concat (Spec.segment_piece <$> l1)),
         (rstrip ([nl; nl] ++ concat (Spec.segment_piece <$> l2))).
  assert (Hfmt : format_transcript (Some (l1 ++ seg :: l2))
                 = rstrip (concat (Spec.segment_piece <$> l1 ++ seg :: l2))).
  { destruct l1; unfold format_transcript, strip; simpl app;
      rewrite fold_format_segment, app_nil_l;
      by rewrite lstrip_id by apply pieces_clean_head. }
  rewrite Hfmt, fmap_app, concat_app, fmap_cons, concat_cons.
  unfold Spec.segment_piece at 2. fold (segment_prefix seg).
  rewrite decide_False by done. rewrite Hu.
  rewrite <- !app_assoc. cbn [app].
  rewrite !app_assoc. rewrite rstrip_keep by done.
  by rewrite <- !app_assoc.
Qed.

Lemma format_transcript_keeps_sample :
  ∃ before after,
    format_transcript
      (Some [mkSegment (Some (lit " hello ")) None; mkSegment (Some (lit "bye")) None])
    = before ++ segment_prefix (mkSegment (Some (lit " hello ")) None)
      ++ strip (default [] (seg_text (mkSegment (Some (lit " hello ")) None))) ++ after.
Proof.
  apply format_transcript_keeps_segments.
  - apply list_elem_of_here.
  - unfold blank_segment. vm_compute. discriminate.
Defined.

(** ** The transcript page *)

(** X16. The markdown of the transcript page is never longer than 50,038
    characters (the limit and the suffix), and it always starts with the
    first 50,000 characters of the transcript. *)
Theorem transcript_markdown_bound (t : str) :
  len (transcript_markdown t) ≤ 50038
  ∧ slice_to 50000 t `prefix_of` transcript_markdown t.
Proof.
  assert (Hsuffix : length truncation_suffix = 38%nat) by reflexivity.
  unfold transcript_markdown. destruct (Z.ltb_spec (len t) 50000) as [Hlt|Hge].
  - split; [lia|]. unfold slice_to, len in *. rewrite take_ge by lia. done.
  - split; [|by apply prefix_app_r].
    unfold slice_to, len in *. rewrite length_app, length_take. lia.
Qed.

(** ** One day per meeting *)

Lemma int_of_digits_zeros k s :
  int_of_digits (replicate k 48%N ++ s) = int_of_digits s.
Proof.
  unfold int_of_digits. rewrite fold_left_app. f_equal.
  induction k as [|k IH]; [done|exact IH].
Qed.

Lemma zero_pad_value width n : int_of_digits (zero_pad width (decimal n)) = n.
Proof. unfold zero_pad. by rewrite int_of_digits_zeros, decimal_value. Qed.

Lemma zero_pad_decimal_length k n :
  (n < 10 ^ N.of_nat (S k))%N → length (zero_pad (S k) (decimal n)) = S k.
Proof. intros Hn. by apply zero_pad_length, decimal_digits_length. Qed.

Lemma isoformat_inj d1 d2 :
  calendar_date d1 → calendar_date d2 → isoformat d1 = isoformat d2 → d1 = d2.
Proof.
  intros (Hy1 & Hm1 & Hd1) (Hy2 & Hm2 & Hd2). unfold isoformat. intros Heq.
  apply app_inj_1 in Heq as [Hy Heq];
    [|by rewrite !(zero_pad_decimal_length 3)].
  apply app_inj_1 in Heq as [_ Heq]; [|done].
  apply app_inj_1 in Heq as [Hm Heq];
    [|by rewrite !(zero_pad_decimal_length 1)].
  apply app_inj_1 in Heq as [_ Hd]; [|done].
  apply (f_equal int_of_digits) in Hy, Hm, Hd.
  rewrite !zero_pad_value in Hy, Hm, Hd.
  destruct d1, d2; simpl in *. congruence.
Qed.

Lemma isoformat_length d : calendar_date d → length (isoformat d) = 10%nat.
Proof.
  intros (Hy & Hm & Hd). unfold isoformat. rewrite !length_app.
  rewrite (zero_pad_decimal_length 3), !(zero_pad_decimal_length 1) by done.
  reflexivity.
Qed.

Lemma elem_of_filter_meetings m documents d :
  m ∈ filter_meetings_by_date documents d → Spec.created_on d m.
Proof.
  unfold filter_meetings_by_date. rewrite list_elem_of_In, filter_In.
  intros [_ H]. by apply created_on_startswith.
Qed.

(** X17. No meeting is selected for two different days: if a meeting
    passes the filter for two calendar dates, the dates are the same. *)
Theorem filter_dates_disjoint (documents : list Meeting) (d1 d2 : date) (m : Meeting) :
  calendar_date d1 → calendar_date d2 →
  m ∈ filter_meetings_by_date documents d1 →
  m ∈ filter_meetings_by_date documents d2 →
  d1 = d2.
Proof.
  intros Hd1 Hd2 (s1 & Hs1 & Hp1)%elem_of_filter_meetings
                 (s2 & Hs2 & Hp2)%elem_of_filter_meetings.
  rewrite Hs1 in Hs2. injection Hs2 as <-.
  apply isoformat_inj; [done|done|].
  destruct (prefix_weak_total _ _ _ Hp1 Hp2) as [H|H].
  - apply prefix_length_eq; [done|]. by rewrite !isoformat_length.
  - symmetry. apply prefix_length_eq; [done|]. by rewrite !isoformat_length.
Qed.

Lemma filter_dates_disjoint_sample :
  Date 2024 1 5 = Date 2024 1 5.
Proof.
  apply (filter_dates_disjoint three_documents (Date 2024 1 5) (Date 2024 1 5)
           (mkMeeting (lit "m1") (Some (lit "Planning")) (Some (lit "2024-01-05T09:00:00Z")))).
  - by split_and!.
  - by split_and!.
  - apply list_elem_of_here.
  - apply list_elem_of_here.
Defined.

Lemma sub_newlines_keeps_sample : sub_newlines (lit "a" ++ [nl; nl] ++ lit "b") = lit "a" ++ [nl; nl] ++ lit "b".
Proof.
  destruct (sub_newlines_properties (lit "a" ++ [nl; nl] ++ lit "b")) as (_ & _ & _ & Hsame).
  apply Hsame. reflexivity.
Defined.

(** ** The angle brackets of the output *)






Example brackets_are_kept :
  html_to_markdown HtmlParser.BeautifulSoup (lit "<p>1 < 2</p><p>b > a</p>")
  = lit "1 < 2" ++ [nl; nl] ++ lit "b > a".
Proof. vm_compute. reflexivity. Qed.
